(** * Coursify scrapers: the extraction and reconciliation core

    A shallow embedding of the pure logic of the three scrapers
    ([rmp_scraper.py], [reddit_scraper.py], [course-scraper.py]) and the
    properties of their specification.

    Conventions of the embedding.
    - A Python [str] is a Rocq [string]; the character classes ([isalpha],
      [isdigit], whitespace, [\d], [\s], [\b], [upper], [lower]) are the
      ones of the ASCII range, which is where the scraped course codes,
      dates and keywords live.
    - [None] is [option]'s [None]; a raised exception is the [Raise] side
      of [result].
    - A [dict] is a [gmap]; a Python [set] that is only tested for
      membership is a [gset]; a set or list that the code iterates over is
      the list of its elements in iteration order.
    - A Python [float] is a rational of [Q]: the scrapers read, compare and
      copy these numbers and do no arithmetic on them.
    - What the browser and the database hand to the code is an argument of
      the function that consumes it; what the libraries (TextBlob, [float],
      [int], [datetime]) compute is a field of the class [Libraries]. *)

From Stdlib Require Import Ascii String ZArith QArith Lia.
From stdpp Require Import base option list strings gmap.

Local Open Scope string_scope.
Local Open Scope nat_scope.
Local Open Scope list_scope.

(** ** Python string primitives *)

Module PyStr.

Definition code (c : ascii) : nat := nat_of_ascii c.

Definition in_range (lo hi : nat) (c : ascii) : bool :=
  (lo <=? code c) && (code c <=? hi).

Definition is_upper (c : ascii) : bool := in_range 65 90 c.
Definition is_lower (c : ascii) : bool := in_range 97 122 c.
Definition is_alpha (c : ascii) : bool := is_upper c || is_lower c.
Definition is_digit (c : ascii) : bool := in_range 48 57 c.
(* str.isspace / \s on the ASCII range: \t \n \v \f \r, \x1c..\x1f, space *)
Definition is_space (c : ascii) : bool := in_range 9 13 c || in_range 28 32 c.
(* \w *)
Definition is_word (c : ascii) : bool :=
  is_alpha c || is_digit c || (code c =? 95).

Definition to_upper (c : ascii) : ascii :=
  if is_lower c then ascii_of_nat (code c - 32) else c.
Definition to_lower (c : ascii) : ascii :=
  if is_upper c then ascii_of_nat (code c + 32) else c.

Fixpoint smap (f : ascii → ascii) (s : string) : string :=
  match s with
  | EmptyString => EmptyString
  | String c s' => String (f c) (smap f s')
  end.

Fixpoint sfilter (p : ascii → bool) (s : string) : string :=
  match s with
  | EmptyString => EmptyString
  | String c s' => if p c then String c (sfilter p s') else sfilter p s'
  end.

Fixpoint sall (p : ascii → bool) (s : string) : bool :=
  match s with
  | EmptyString => true
  | String c s' => p c && sall p s'
  end.

(* s.upper(), s.lower() *)
Definition upper : string → string := smap to_upper.
Definition lower : string → string := smap to_lower.

(* s.replace(c, "") for a one-character c *)
Definition remove_char (c : ascii) : string → string :=
  sfilter (λ x, negb (Ascii.eqb x c)).

(* s.lstrip(), s.rstrip(), s.strip() *)
Fixpoint lstrip_by (p : ascii → bool) (s : string) : string :=
  match s with
  | EmptyString => EmptyString
  | String c s' => if p c then lstrip_by p s' else s
  end.
Definition rstrip_by (p : ascii → bool) (s : string) : string :=
  String.rev (lstrip_by p (String.rev s)).
Definition strip (s : string) : string :=
  rstrip_by is_space (lstrip_by is_space s).

(* s.isdigit(), s.isalpha(): false on the empty string *)
Definition isdigit (s : string) : bool :=
  negb (String.eqb s "") && sall is_digit s.
Definition isalpha (s : string) : bool :=
  negb (String.eqb s "") && sall is_alpha s.

(* s.startswith(p) *)
Definition startswith (s p : string) : bool := String.prefix p s.

(* sub in s *)
Fixpoint contains (s sub : string) : bool :=
  String.prefix sub s ||
  match s with
  | EmptyString => false
  | String _ s' => contains s' sub
  end.

(* s.split(sep) for a one-character sep: never the empty list *)
Fixpoint split_go (sep : ascii) (cur : string) (s : string) : list string :=
  match s with
  | EmptyString => [String.rev cur]
  | String c s' =>
      if Ascii.eqb c sep then String.rev cur :: split_go sep EmptyString s'
      else split_go sep (String c cur) s'
  end.
Definition split (sep : ascii) (s : string) : list string :=
  split_go sep EmptyString s.

(* s[n:] and s[i:i+m] *)
Fixpoint drop (n : nat) (s : string) : string :=
  match n, s with
  | S n', String _ s' => drop n' s'
  | _, _ => s
  end.
Definition slice (i m : nat) (s : string) : string := String.substring i m s.

(* Python's truthiness of a str-or-None value *)
Definition truthy (o : option string) : bool :=
  match o with
  | Some s => negb (String.eqb s "")
  | None => false
  end.

End PyStr.

(** ** The fragment of Python's [re] used by the scrapers

    A backtracking matcher in continuation-passing style: alternatives are
    tried left to right and quantifiers are greedy, which is the order in
    which [re] explores them, so the first success is the match [re]
    reports.  The continuation receives the character before the current
    position (for [\b]) and the rest of the subject. *)

Module Re.
Import PyStr.

Inductive regex : Type :=
| Eps
| Cls (p : ascii → bool)               (* one character of a class *)
| ClsPlus (p : ascii → bool)           (* [..]+ *)
| ClsRep (n : nat) (p : ascii → bool)  (* [..]{n} *)
| Lit (s : string)                     (* literal text *)
| Seq (r1 r2 : regex)
| Alt (r1 r2 : regex)                  (* r1|r2 *)
| Opt (r : regex)                      (* r? *)
| WordB                                (* \b *)
| Bol.                                 (* ^ *)

Definition cont : Type := option ascii → string → option string.

Definition or_else (a : option string) (b : option string) : option string :=
  match a with Some _ => a | None => b end.

Fixpoint cls_star (p : ascii → bool) (prev : option ascii) (s : string)
    (k : cont) : option string :=
  match s with
  | String c s' =>
      if p c then or_else (cls_star p (Some c) s' k) (k prev s) else k prev s
  | EmptyString => k prev s
  end.

Fixpoint cls_rep (n : nat) (p : ascii → bool) (prev : option ascii)
    (s : string) (k : cont) : option string :=
  match n with
  | O => k prev s
  | S n' =>
      match s with
      | String c s' => if p c then cls_rep n' p (Some c) s' k else None
      | EmptyString => None
      end
  end.

Fixpoint lit (l : string) (prev : option ascii) (s : string) (k : cont)
    : option string :=
  match l with
  | EmptyString => k prev s
  | String a l' =>
      match s with
      | String c s' => if Ascii.eqb a c then lit l' (Some c) s' k else None
      | EmptyString => None
      end
  end.

Definition word_opt (o : option ascii) : bool :=
  match o with Some c => is_word c | None => false end.

Definition peek (s : string) : option ascii :=
  match s with String c _ => Some c | EmptyString => None end.

Fixpoint run (r : regex) (prev : option ascii) (s : string) (k : cont)
    : option string :=
  match r with
  | Eps => k prev s
  | Cls p => cls_rep 1 p prev s k
  | ClsPlus p =>
      match s with
      | String c s' => if p c then cls_star p (Some c) s' k else None
      | EmptyString => None
      end
  | ClsRep n p => cls_rep n p prev s k
  | Lit l => lit l prev s k
  | Seq r1 r2 => run r1 prev s (λ prev' s', run r2 prev' s' k)
  | Alt r1 r2 => or_else (run r1 prev s k) (run r2 prev s k)
  | Opt r1 => or_else (run r1 prev s k) (k prev s)
  | WordB =>
      if xorb (word_opt prev) (word_opt (peek s)) then k prev s else None
  | Bol => match prev with None => k prev s | Some _ => None end
  end.

(* The text matched at the current position, with what follows it. *)
Definition match_here (r : regex) (prev : option ascii) (s : string)
    : option (string * string) :=
  match run r prev s (λ _ rest, Some rest) with
  | Some rest =>
      Some (String.substring 0 (String.length s - String.length rest) s, rest)
  | None => None
  end.

(* re.match(r, s): the match at the start of s *)
Definition rmatch (r : regex) (s : string) : option string :=
  fst <$> match_here r None s.

(* The leftmost match from the current position on: the text skipped, the
   match, the rest, and the character before the rest. *)
Fixpoint search_from (r : regex) (prev : option ascii) (s : string)
    : option (string * string * string) :=
  match match_here r prev s with
  | Some (m, rest) => Some (EmptyString, m, rest)
  | None =>
      match s with
      | EmptyString => None
      | String c s' =>
          match search_from r (Some c) s' with
          | Some (skipped, m, rest) => Some (String c skipped, m, rest)
          | None => None
          end
      end
  end.

Definition last_char (prev : option ascii) (s : string) : option ascii :=
  match String.rev s with String c _ => Some c | EmptyString => prev end.

(* re.search(r, s).group(0) *)
Definition search (r : regex) (s : string) : option string :=
  (λ x, snd (fst x)) <$> search_from r None s.

(* The non-overlapping matches, left to right, each with the text skipped
   before it, and the text after the last one.  After an empty match (no
   pattern of the scrapers has one) the scan moves on by one character;
   [fuel] bounds the number of matches. *)
Definition shift (c : ascii) (r : list (string * string) * string)
    : list (string * string) * string :=
  match r with
  | ([], tl) => ([], String c tl)
  | ((skipped, m) :: ms, tl) => ((String c skipped, m) :: ms, tl)
  end.

Fixpoint scan (fuel : nat) (r : regex) (prev : option ascii) (s : string)
    : list (string * string) * string :=
  match fuel with
  | O => ([], s)
  | S fuel' =>
      match search_from r prev s with
      | None => ([], s)
      | Some (skipped, m, rest) =>
          match m, rest with
          | EmptyString, EmptyString => ([(skipped, m)], EmptyString)
          | EmptyString, String c rest' =>
              let '(ms, tl) := shift c (scan fuel' r (Some c) rest') in
              ((skipped, m) :: ms, tl)
          | _, _ =>
              let '(ms, tl) :=
                scan fuel' r (last_char prev (skipped +:+ m)) rest in
              ((skipped, m) :: ms, tl)
          end
      end
  end.

(* re.findall(r, s) for a pattern without groups *)
Definition findall (r : regex) (s : string) : list string :=
  snd <$> fst (scan (S (String.length s)) r None s).

(* re.sub(r, repl, s); [repl] computes the replacement from the match *)
Definition sub (r : regex) (repl : string → string) (s : string) : string :=
  let '(ms, tl) := scan (S (String.length s)) r None s in
  foldr (λ '(skipped, m) acc, skipped +:+ repl m +:+ acc) tl ms.

End Re.

(** ** Exceptions *)

Inductive exn : Type :=
| TypeError | KeyError | AttributeError | ValueError | IndexError
| NoSuchElementException.

Inductive result (A : Type) : Type :=
| Ok (a : A)
| Raise (e : exn).
Arguments Ok {A} a.
Arguments Raise {A} e.

#[global] Instance result_ret : MRet result := λ A a, Ok a.
#[global] Instance result_bind : MBind result := λ A B f m,
  match m with
  | Ok a => f a
  | Raise e => Raise e
  end.
#[global] Instance result_fmap : FMap result := λ A B f m,
  match m with
  | Ok a => Ok (f a)
  | Raise e => Raise e
  end.

(* The value of an expression that raises [e] when its operand is missing. *)
Definition or_raise {A} (e : exn) (o : option A) : result A :=
  match o with
  | Some a => Ok a
  | None => Raise e
  end.

(** ** What the libraries compute

    The scrapers call TextBlob, [float], [int] and [datetime]; the embedding
    is parametric in what these return. *)

Class Libraries : Type := {
  (* TextBlob(text).sentiment.polarity *)
  polarity : string → Q;
  (* float(text); None when it raises ValueError *)
  py_float : string → option Q;
  (* int(text); None when it raises ValueError *)
  py_int : string → option Z;
  (* datetime.strptime(text, "%b %d, %Y").date().isoformat(); None when
     strptime raises ValueError *)
  strptime_iso : string → option string;
  (* datetime.utcfromtimestamp(t).date().isoformat() *)
  utc_date : Q → string;
}.

(** ** rmp_scraper.py *)

Module Rmp.
Import PyStr Re.

(* len(comment) >= 10 and comment non-empty *)
Definition is_valid_comment (comment : string) : bool :=
  negb (String.eqb comment "" || (String.length comment <? 10)).

(** *** clean_and_map_course_codes *)

(* raw_code.strip().replace(" ", "").upper() *)
Definition cleaned_of (raw_code : string) : string :=
  upper (remove_char " " (strip raw_code)).

Definition prefix_re : regex := Seq Bol (ClsPlus is_upper).  (* ^[A-Z]+ *)
Definition digits_re : regex := ClsPlus is_digit.            (* \d+ *)

(* f"{dept} {num}" *)
Definition candidate_of (dept num : string) : string := dept +:+ " " +:+ num.

(* set.add on a set that is iterated later *)
Definition set_add (x : string) (l : list string) : list string :=
  if bool_decide (x ∈ l) then l else l ++ [x].

Record derived : Type := {
  valid_dept_codes : list string;
  valid_num_codes : gset string;
  derived_valid_courses : gset string;
}.

Definition derived_empty : derived :=
  {| valid_dept_codes := []; valid_num_codes := ∅;
     derived_valid_courses := ∅ |}.

(* {course.replace(" ", "").upper(): course for course in valid_courses} *)
Definition valid_courses_no_space (valid_courses : list string)
    : gmap string string :=
  foldl (λ m course, <[upper (remove_char " " course) := course]> m)
        ∅ valid_courses.

(* The body of the inner loop [for dept in valid_dept_codes] of step 1. *)
Definition derive_num (valid_courses : list string) (num : string)
    (st : derived) (dept : string) : derived :=
  let candidate := candidate_of dept num in
  if bool_decide (candidate ∈ valid_courses) then
    {| valid_dept_codes := valid_dept_codes st;
       valid_num_codes := {[num]} ∪ valid_num_codes st;
       derived_valid_courses := {[candidate]} ∪ derived_valid_courses st |}
  else st.

(* The body of the loop of step 1. *)
Definition derive_step (valid_courses : list string) (st : derived)
    (raw_code : string) : derived :=
  let cleaned := cleaned_of raw_code in
  let prefix_match := rmatch prefix_re cleaned in
  let number_parts := findall digits_re cleaned in
  let st1 :=
    match prefix_match with
    | Some prefix =>
        if existsb (λ valid, startswith (remove_char " " valid) prefix)
                   valid_courses
        then {| valid_dept_codes := set_add prefix (valid_dept_codes st);
                valid_num_codes := valid_num_codes st;
                derived_valid_courses := derived_valid_courses st |}
        else st
    | None => st
    end in
  foldl (λ st2 num,
           if 3 <=? String.length num then
             let num := slice 0 3 num in
             foldl (derive_num valid_courses num) st2 (valid_dept_codes st2)
           else st2)
        st1 number_parts.

Definition derive (course_codes valid_courses : list string) : derived :=
  foldl (derive_step valid_courses) derived_empty course_codes.

(* for dept in valid_dept_codes: if f"{dept} {num}" in derived_valid_courses:
     matches.append(candidate) *)
Definition append_hits (st : derived) (num : string) (matches : list string)
    : list string :=
  foldl (λ ms dept,
           let candidate := candidate_of dept num in
           if bool_decide (candidate ∈ derived_valid_courses st)
           then ms ++ [candidate] else ms)
        matches (valid_dept_codes st).

(* idx = 0; while idx < len(suffix): num = suffix[idx:idx+3]; idx += 3; ...
   [fuel] is the number of turns left; len(suffix) turns are enough. *)
Fixpoint chunk_loop (fuel idx : nat) (st : derived) (suffix : string)
    (matches : list string) : list string :=
  match fuel with
  | O => matches
  | S fuel' =>
      if idx <? String.length suffix then
        let num := slice idx 3 suffix in
        chunk_loop fuel' (idx + 3) st suffix (append_hits st num matches)
      else matches
  end.

(* The value of [matches] at the end of the if/elif chain of step 2:
   a list, or None. *)
Definition matches_of (valid_courses : list string) (st : derived)
    (raw_code : string) : option (list string) :=
  let cleaned := cleaned_of raw_code in
  match valid_courses_no_space valid_courses !! cleaned with
  | Some course => Some [course]
  | None =>
      let prefix_match := rmatch prefix_re cleaned in
      let number_parts := findall digits_re cleaned in
      match prefix_match, number_parts with
      | Some prefix, _ :: _ =>
          let suffix := drop (String.length prefix) cleaned in
          Some (chunk_loop (String.length suffix) 0 st suffix [])
      | _, _ =>
          if isdigit cleaned && (String.length cleaned =? 3) then
            let num := cleaned in
            if bool_decide (num ∈ valid_num_codes st)
            then Some (append_hits st num [])
            else None
          else if isalpha cleaned then None
          else None
      end
  end.

(* if len(matches) == 1: ... else: ...; len(None) raises TypeError *)
Definition map_one (valid_courses : list string) (st : derived)
    (raw_code : string) : result (option (list string)) :=
  match matches_of valid_courses st raw_code with
  | None => Raise TypeError
  | Some matches =>
      if length matches =? 1 then Ok (Some matches) else Ok None
  end.

(* The body of the loop of step 2; an exception ends the call. *)
Definition map_step (valid_courses : list string) (st : derived)
    (acc : result (gmap string (option (list string)))) (raw_code : string)
    : result (gmap string (option (list string))) :=
  course_mapping ← acc;
  v ← map_one valid_courses st raw_code;
  mret (<[raw_code := v]> course_mapping).

Definition clean_and_map_course_codes (course_codes valid_courses : list string)
    : result (gmap string (option (list string))) :=
  let st := derive course_codes valid_courses in
  foldl (map_step valid_courses st) (Ok ∅) course_codes.

(** *** scrape_professors *)

(* The dict appended to [professors]. *)
Record professor : Type := {
  p_id : string;
  p_name : string;
  p_department : string;
  p_school : string;
  p_overall_rating : string;
  p_num_ratings : Z;
  p_url : string;
}.

(* A teacher card of the search page: the text of each element looked up
   in it, None when [find_element] finds nothing (or the card carries no
   href). *)
Record card : Type := {
  card_name : option string;
  card_department : option string;
  card_school : option string;
  card_rating : option string;
  card_num_ratings : option string;
  card_href : option string;
}.

(* What the lookup of the "Show More" button gives at the end of a turn. *)
Inductive show_more : Type :=
| NoButton        (* NoSuchElementException *)
| NotClickable    (* found, but not displayed or not enabled *)
| Clickable.

(* s.split()[0] *)
Definition first_word (s : string) : option string :=
  match lstrip_by is_space s with
  | EmptyString => None
  | String c s' =>
      let w := String c s' in
      Some (String.substring 0
              (String.length w
               - String.length (lstrip_by (λ x, negb (is_space x)) w)) w)
  end.

Record collect_state : Type := {
  professors : list professor;
  seen_professor_ids : gset string;
  previous_count : nat;
}.

Section Collect.
Context {L : Libraries}.

(* The body of the [try] of one card, up to the test on [prof_id]. *)
Definition extract_card (c : card) : result professor :=
  name ← or_raise NoSuchElementException (card_name c);
  department ← or_raise NoSuchElementException (card_department c);
  school ← or_raise NoSuchElementException (card_school c);
  rating ← or_raise NoSuchElementException (card_rating c);
  num_text ← or_raise NoSuchElementException (card_num_ratings c);
  word ← or_raise IndexError (first_word num_text);
  num_ratings ← or_raise ValueError (py_int (remove_char "," word));
  href ← or_raise AttributeError (card_href c);
  let prof_url :=
    if startswith href "/"
    then "https://www.ratemyprofessors.com" +:+ href else href in
  let prof_id :=
    default "" (last (split "/" (rstrip_by (Ascii.eqb "/") prof_url))) in
  mret {| p_id := prof_id; p_name := name; p_department := department;
          p_school := school; p_overall_rating := rating;
          p_num_ratings := num_ratings; p_url := prof_url |}.

Definition add_card (st : collect_state) (c : card) : collect_state :=
  match extract_card c with
  | Raise _ => st
  | Ok prof =>
      if bool_decide (p_id prof ∈ seen_professor_ids st) then st
      else {| professors := professors st ++ [prof];
              seen_professor_ids := {[p_id prof]} ∪ seen_professor_ids st;
              previous_count := previous_count st |}
  end.

(* The [while True] loop.  [views] is what the browser shows turn after
   turn: all the cards found, and the state of the button. *)
Fixpoint collect (testing : bool) (views : list (list card * show_more))
    (st : collect_state) : list professor :=
  match views with
  | [] => professors st
  | (professor_cards, button) :: views' =>
      let st1 :=
        foldl add_card st (List.skipn (previous_count st) professor_cards) in
      let st2 :=
        {| professors := professors st1;
           seen_professor_ids := seen_professor_ids st1;
           previous_count := length professor_cards |} in
      match button with
      | Clickable =>
          if testing && (20 <? length (professors st2))
          then professors st2
          else collect testing views' st2
      | NoButton | NotClickable => professors st2
      end
  end.

(* d[k] = v on a dict, which keeps the position of a key it already has *)
Fixpoint dict_set {V : Type} (k : string) (v : V) (d : list (string * V))
    : list (string * V) :=
  match d with
  | [] => [(k, v)]
  | (k', v') :: d' =>
      if String.eqb k' k then (k', v) :: d' else (k', v') :: dict_set k v d'
  end.

(* {prof["name"]: prof for prof in professors}.values() *)
Definition values_by_name (profs : list professor) : list professor :=
  snd <$> foldl (λ d prof, dict_set (p_name prof) prof d) [] profs.

Definition scrape_professors (testing : bool)
    (views : list (list card * show_more)) : list professor :=
  values_by_name
    (collect testing views
       {| professors := []; seen_professor_ids := ∅; previous_count := 0 |}).
End Collect.

(* re.sub(r"\s+", " ", text.strip().lower()) *)
Definition normalize_comment (text : string) : string :=
  sub (ClsPlus is_space) (λ _, " ") (lower (strip text)).

(** *** to_scrape_professor *)

(* A row of the professors table, as selected. *)
Record previous_professor : Type := {
  prev_name : string;
  prev_num_ratings : option Z;
  prev_latest_comment_date : option string;
}.

(* The professor dict once [latest_comment_date] is attached to it. *)
Record prof_to_scrape : Type := {
  prof : professor;
  latest_comment_date : option string;
}.

Definition previous_professors_dict (previous_professors : list previous_professor)
    : gmap string (option Z * option string) :=
  foldl (λ d row,
           if String.eqb (prev_name row) "general_prof" then d
           else <[prev_name row :=
                    (prev_num_ratings row, prev_latest_comment_date row)]> d)
        ∅ previous_professors.

(* The body of the loop over the scraped professors: what it appends. *)
Definition to_scrape_one (d : gmap string (option Z * option string))
    (p : professor) : list prof_to_scrape :=
  match d !! p_name p with
  | Some (stored, date) =>
      if bool_decide (Some (p_num_ratings p) ≠ stored)
      then [{| prof := p; latest_comment_date := date |}]
      else []
  | None => [{| prof := p; latest_comment_date := None |}]
  end.

Definition to_scrape_professor (previous_professors : list previous_professor)
    (profs : list professor) : list prof_to_scrape :=
  let previous_professors_dict := previous_professors_dict previous_professors in
  foldl (λ professors_to_scrape p,
           professors_to_scrape ++ to_scrape_one previous_professors_dict p)
        [] profs.

(** *** scrape_professor_comments *)

(* An <li> of ul#ratingsList: the text of each element selected in it,
   None when [select_one] finds nothing. *)
Record review_block : Type := {
  rating_div : bool;                 (* div.Rating__StyledRating-...: not an ad *)
  timestamp : option string;         (* div.TimeStamp__StyledTimeStamp-... *)
  class_header : option string;      (* div.RatingHeader__StyledClass-... *)
  quality_elem : option string;      (* ...CardNumRatingNumber-....ERCLc *)
  difficulty_elem : option string;   (* ...CardNumRatingNumber-....eBKGNg *)
  comments_div : option string;      (* div.Comments__StyledComments-... *)
  tag_spans : list string;           (* span.Tag-bs9vf4-0 *)
}.

(* The professor's page once loaded. *)
Record prof_page : Type := {
  rating_elem : option string;       (* div.RatingValue__Numerator-... *)
  feedback_numbers : list string;    (* div.FeedbackItem__FeedbackNumber-... *)
  teacher_tags : list string;        (* the spans of the tags container *)
  menu_text : string;                (* course_menu.text *)
  ratings_list : option (list review_block);   (* ul#ratingsList *)
}.

Record parsed_review : Type := {
  r_date : string;
  r_quality : option Q;
  r_difficulty : option Q;
  r_comment : string;
  r_tags : list string;
  r_sentiment_score : Q;
  r_sentiment_label : string;
  r_course_code : string;
}.

(* The row upserted into the professors table. *)
Record updated_prof : Type := {
  u_id : string;
  u_name : string;
  u_overall_rating : option Q;
  u_percent_retake : option Q;
  u_level_of_difficulty : option Q;
  u_professor_tags : list string;
  u_latest_comment_date : option string;
  u_num_ratings : Z;
  u_url : string;
}.

(* A row inserted into rag_chunks. *)
Record chunk : Type := {
  text : string;
  source : string;
  course_code : string;
  professor_name : string;
  source_url : string;
  tags : list string;
  created_at : string;
  quality_rating : option Q;
  sentiment_score : Q;
  sentiment_label : string;
  difficulty_rating : option Q;
}.

Record loop_state : Type := {
  reviews : list parsed_review;
  seen_reviews_set : gset (string * string);
  stop_scraping : bool;
}.

(* (\d+)(st|nd|rd|th), replaced by its first group *)
Definition ordinal_re : regex :=
  Seq (ClsPlus is_digit)
      (Alt (Lit "st") (Alt (Lit "nd") (Alt (Lit "rd") (Lit "th")))).
Definition ordinal_group1 (m : string) : string :=
  String.substring 0 (String.length m - 2) m.

(* \(\d+\) *)
Definition count_re : regex := Seq (Lit "(") (Seq (ClsPlus is_digit) (Lit ")")).

(* The loop over raw_courses: the set all_courses, in the order of the
   menu. *)
Definition all_courses_of (raw_courses : list string) : list string :=
  foldl (λ all_courses course,
           let cleaned := strip (sub count_re (λ _, "") course) in
           if negb (String.eqb cleaned "")
              && negb (String.eqb (lower cleaned) "all courses")
           then set_add cleaned all_courses else all_courses)
        [] raw_courses.

(* The local variables of scrape_professor_comments that the review loop
   reads. *)
Record review_env : Type := {
  env_prof : prof_to_scrape;
  overall_rating : option Q;
  level_of_difficulty : option Q;
  course_code_mappings : gmap string (option (list string));
  existing_reviews_set : gset (string * string);
  (* The loop variable of [for course in raw_courses], still bound after the
     loop. *)
  course : string;
}.

Section Scrape.
Context {L : Libraries}.

Definition detect_sentiment (text : string) : Q * string :=
  let sentiment_score := polarity text in
  let sentiment_label :=
    if negb (Qle_bool sentiment_score (1 # 2)) then "very positive"
    else if negb (Qle_bool sentiment_score (1 # 5)) then "positive"
    else if negb (Qle_bool (- (1 # 2)) sentiment_score) then "very negative"
    else if negb (Qle_bool (- (1 # 5)) sentiment_score) then "negative"
    else "neutral" in
  (sentiment_score, sentiment_label).

(* safe_float applied to a text that may be None *)
Definition safe_float (text : option string) : option Q :=
  text ≫= py_float.

Section Reviews.
Variable env : review_env.

(* float(elem.text.strip()) if elem else fallback *)
Definition rating_or (elem : option string) (fallback : option Q)
    : result (option Q) :=
  match elem with
  | Some t => Some <$> or_raise ValueError (py_float (strip t))
  | None => Ok fallback
  end.

(* The date of a review block, in ISO format. *)
Definition date_of (block : review_block) : result string :=
  date ← strip <$> or_raise AttributeError (timestamp block);
  let date := sub ordinal_re ordinal_group1 date in
  or_raise ValueError (strptime_iso date).

(* prof["latest_comment_date"] is not None
   and date <= prof["latest_comment_date"] *)
Definition not_newer (date : string) : bool :=
  match latest_comment_date (env_prof env) with
  | Some watermark => String.leb date watermark
  | None => false
  end.

(* The body of the [try] for one review block.  The boolean tells
   whether the [for] loop is left by [break]. *)
Definition parse_block (st : loop_state) (block : review_block)
    : result (loop_state * bool) :=
  date ← date_of block;
  if not_newer date
  then Ok ({| reviews := reviews st;
              seen_reviews_set := seen_reviews_set st;
              stop_scraping := true |}, true)
  else
    scraped_course_code ←
      strip <$> or_raise AttributeError (class_header block);
    course_codes ←
      or_raise KeyError (course_code_mappings env !! scraped_course_code);
    quality ← rating_or (quality_elem block) (overall_rating env);
    difficulty ← rating_or (difficulty_elem block) (level_of_difficulty env);
    comment ← strip <$> or_raise AttributeError (comments_div block);
    if negb (is_valid_comment comment) then Ok (st, false)
    else
      let '(sentiment_score, sentiment_label) := detect_sentiment comment in
      let review_tags := strip <$> tag_spans block in
      let course_codes :=
        match course_codes with
        | None | Some [] => ["general_course"]
        | Some (c :: cs) => c :: cs
        end in
      let normalized_comment := normalize_comment comment in
      if bool_decide ((normalized_comment, date) ∈ existing_reviews_set env)
         || bool_decide ((normalized_comment, date) ∈ seen_reviews_set st)
      then Ok (st, false)
      else
        let parsed_review :=
          {| r_date := date; r_quality := quality;
             r_difficulty := difficulty; r_comment := normalized_comment;
             r_tags := review_tags;
             r_sentiment_score := sentiment_score;
             r_sentiment_label := sentiment_label;
             r_course_code := course env |} in
        Ok ({| reviews := reviews st ++ [parsed_review];
               seen_reviews_set :=
                 {[(normalized_comment, date)]} ∪ seen_reviews_set st;
               stop_scraping := stop_scraping st |}, false).

(* for block in review_items: ads are passed over, an exception skips
   the review. *)
Fixpoint for_blocks (st : loop_state) (review_items : list review_block)
    : loop_state :=
  match review_items with
  | [] => st
  | block :: rest =>
      if rating_div block then
        match parse_block st block with
        | Raise _ => for_blocks st rest
        | Ok (st', true) => st'
        | Ok (st', false) => for_blocks st' rest
        end
      else for_blocks st rest
  end.

(* The [while True] loop for a professor with reviews.  The page is
   parsed once, before the loop: every turn goes through the same
   review items.  [clicks] is the number of turns at whose end the
   "Load More Ratings" button is found displayed and enabled. *)
Fixpoint while_reviews (clicks : nat) (review_items : list review_block)
    (st : loop_state) : loop_state :=
  let st' := for_blocks st review_items in
  if stop_scraping st' then st'
  else
    match clicks with
    | O => st'
    | S clicks' => while_reviews clicks' review_items st'
    end.
End Reviews.

Definition chunk_of (p : prof_to_scrape) (review : parsed_review) : chunk :=
  {| text := r_comment review;
     source := "ratemyprofessors";
     course_code := r_course_code review;
     professor_name := p_name (prof p);
     source_url := p_url (prof p);
     tags := r_tags review;
     created_at := r_date review;
     quality_rating := r_quality review;
     sentiment_score := r_sentiment_score review;
     sentiment_label := r_sentiment_label review;
     difficulty_rating := r_difficulty review |}.

(* Everything from the course menu to the end of the [while] loop: the
   reviews collected. *)
Definition collect_reviews (p : prof_to_scrape)
    (overall_rating level_of_difficulty : option Q)
    (valid_courses : list string) (page : prof_page)
    (existing : list (string * string)) (clicks : nat)
    : result (list parsed_review) :=
  let has_reviews := (0 <? p_num_ratings (prof p))%Z in
  let raw_courses := split "010" (menu_text page) in
  let all_courses := all_courses_of raw_courses in
  mappings ← clean_and_map_course_codes all_courses valid_courses;
  let env :=
    {| env_prof := p;
       overall_rating := overall_rating;
       level_of_difficulty := level_of_difficulty;
       course_code_mappings := mappings;
       existing_reviews_set :=
         list_to_set ((λ r, (strip (fst r), snd r)) <$> existing);
       course := default "" (last raw_courses) |} in
  let review_items := default [] (ratings_list page) in
  let init :=
    {| reviews := []; seen_reviews_set := ∅; stop_scraping := false |} in
  mret (reviews
          (if has_reviews then while_reviews env clicks review_items init
           else init)).

(* What the function writes: the professor row upserted and, when there
   are reviews, the batch inserted into rag_chunks.  [existing] is the
   (text, created_at) of the professor's rows of rag_chunks. *)
Definition scrape_professor_comments (p : prof_to_scrape)
    (valid_courses : list string) (page : prof_page)
    (existing : list (string * string)) (clicks : nat)
    : result (updated_prof * option (list chunk)) :=
  let has_reviews := (0 <? p_num_ratings (prof p))%Z in
  let overall_rating :=
    if has_reviews then safe_float (strip <$> rating_elem page) else None in
  let percent_take_again :=
    if has_reviews then
      match feedback_numbers page with
      | t :: _ =>
          safe_float (Some (rstrip_by (Ascii.eqb "%")
                              (lstrip_by (Ascii.eqb "%") t)))
      | [] => None
      end
    else None in
  let level_of_difficulty :=
    if has_reviews then
      match feedback_numbers page with
      | _ :: t :: _ => safe_float (Some (strip t))
      | _ => None
      end
    else None in
  let top_tags := strip <$> teacher_tags page in
  reviews ←
    collect_reviews p overall_rating level_of_difficulty valid_courses
      page existing clicks;
  let date := r_date <$> head reviews in
  let updated :=
    {| u_id := p_id (prof p); u_name := p_name (prof p);
       u_overall_rating := overall_rating;
       u_percent_retake := percent_take_again;
       u_level_of_difficulty := level_of_difficulty;
       u_professor_tags := top_tags;
       u_latest_comment_date := date;
       u_num_ratings := p_num_ratings (prof p);
       u_url := p_url (prof p) |} in
  mret (updated,
        match reviews with
        | [] => None
        | _ :: _ => Some (chunk_of p <$> reviews)
        end).
End Scrape.

End Rmp.

(** ** reddit_scraper.py *)

Module Reddit.
Import PyStr Re.

(* \b(?:Prof\.?|Dr\.?)\s+[A-Z][a-z]+\s+[A-Z][a-z]+\b *)
Definition PROF_NAME_REGEX : regex :=
  Seq WordB
 (Seq (Alt (Seq (Lit "Prof") (Opt (Lit "."))) (Seq (Lit "Dr") (Opt (Lit "."))))
 (Seq (ClsPlus is_space)
 (Seq (Cls is_upper) (Seq (ClsPlus is_lower)
 (Seq (ClsPlus is_space)
 (Seq (Cls is_upper) (Seq (ClsPlus is_lower) WordB))))))).

(* \b[A-Za-z]{4}\s?\d{3}\b *)
Definition COURSE_CODE_REGEX : regex :=
  Seq WordB (Seq (ClsRep 4 is_alpha) (Seq (Opt (Cls is_space))
 (Seq (ClsRep 3 is_digit) WordB))).

(* r1|r2|...|rn over literal words *)
Definition alt_words (ws : list string) : regex :=
  match ws with
  | [] => Eps
  | w :: ws' => foldl (λ r w', Alt r (Lit w')) (Lit w) ws'
  end.

(* not\s+(easy|light|bird course|straightforward) *)
Definition not_easy_re : regex :=
  Seq (Lit "not") (Seq (ClsPlus is_space)
    (alt_words ["easy"; "light"; "bird course"; "straightforward"])).
(* not\s+(hard|tough|difficult|challenging|brutal|intense) *)
Definition not_hard_re : regex :=
  Seq (Lit "not") (Seq (ClsPlus is_space)
    (alt_words ["hard"; "tough"; "difficult"; "challenging"; "brutal";
                "intense"])).

Definition easy_words : list string :=
  ["easy"; "light"; "bird course"; "manageable"; "straightforward"].
Definition hard_words : list string :=
  ["hard"; "tough"; "difficult"; "challenging"; "brutal"; "intense"].
Definition professor_words : list string :=
  ["professor"; "lecturer"; "teaching"; "instructor"; "teaches"; "taught"].
Definition structure_words : list string :=
  ["exam"; "midterm"; "final"; "assignment"; "homework"; "reading";
   "workload"; "labs"; "quizzes"; "group project"].
Definition tips_words : list string :=
  ["recommend"; "tip"; "advice"; "suggest"; "strategy"; "resource";
   "how to study"].

(* any(word in body for word in words) *)
Definition any_in (body : string) (words : list string) : bool :=
  existsb (contains body) words.

Definition detect_tags (text : string) : list string :=
  let body := lower text in
  let is_not_easy := bool_decide (is_Some (search not_easy_re body)) in
  let is_not_hard := bool_decide (is_Some (search not_hard_re body)) in
  (if negb is_not_easy && any_in body easy_words then ["easy"] else [])
  ++ (if negb is_not_hard && any_in body hard_words then ["hard"] else [])
  ++ (if any_in body professor_words then ["professor_review"] else [])
  ++ (if any_in body structure_words then ["course_structure"] else [])
  ++ (if any_in body tips_words then ["tips"] else []).

Record comment : Type := {
  body : string;
  c_score : Z;
  created_utc : Q;
}.

Record post : Type := {
  url : string;
  title : string;
  selftext : string;
  is_self : bool;
  over_18 : bool;
  locked : bool;
  score : Z;
  num_comments : Z;
  comments : list comment;     (* post.comments, once replace_more is done *)
}.

Definition extract_prof_name (full_text : string) : option string :=
  search PROF_NAME_REGEX full_text.

Definition extract_prof_name_from_post (p : post) : option string :=
  extract_prof_name (title p +:+ " " +:+ selftext p).

Definition extract_prof_name_from_comment (c : comment) : option string :=
  extract_prof_name (body c).

(* ([A-Z]{4})(\d{3}), replaced by r"\1 \2" *)
Definition code_parts_re : regex := Seq (ClsRep 4 is_upper) (ClsRep 3 is_digit).
Definition code_parts_repl (m : string) : string :=
  String.substring 0 4 m +:+ " " +:+ String.substring 4 3 m.

Definition extract_course_code (full_text : string) : option string :=
  match search COURSE_CODE_REGEX full_text with
  | Some m =>
      let course_code := upper (remove_char " " m) in
      Some (sub code_parts_re code_parts_repl course_code)
  | None => None
  end.

Definition extract_course_code_from_post (p : post) : option string :=
  extract_course_code (title p +:+ " " +:+ selftext p).

Definition extract_course_code_from_comment (c : comment) : option string :=
  extract_course_code (body c).

Definition is_comment_of_interest (c : comment) : bool :=
  let body := strip (body c) in
  if String.eqb body "" then false
  else if bool_decide (lower body ∈ ["[deleted]"; "[removed]"]) then false
  else if (c_score c <? 1)%Z then false
  else if String.length body <? 15 then false
  else true.

Definition general_course_keywords : list string :=
  ["courses"; "course"; "classes"; "electives"; "program requirements";
   "bird courses"; "easy A"].

Definition is_post_of_interest (p : post) : bool :=
  if negb (is_self p) then false
  else if over_18 p then false
  else if String.eqb (strip (selftext p)) "" then false
  else
    let full_text := lower (title p) +:+ " " +:+ lower (selftext p) in
    if negb (bool_decide (is_Some (search COURSE_CODE_REGEX full_text))
             || any_in full_text general_course_keywords)
    then false
    else if locked p then false
    else if (score p <? 2)%Z || (num_comments p =? 0)%Z then false
    else true.

(* The dict inserted into rag_chunks and appended to [results]. *)
Record comment_data : Type := {
  text : string;
  source : string;
  course_code : option string;
  source_url : string;
  tags : list string;
  professor_name : option string;
  sentiment_score : Q;
  sentiment_label : string;
  upvotes : Z;
  created_at : string;
}.

(* comment_data["course_code"] = v and comment_data["professor_name"] = v *)
Definition set_course_code (v : option string) (d : comment_data)
    : comment_data :=
  {| text := text d; source := source d; course_code := v;
     source_url := source_url d; tags := tags d;
     professor_name := professor_name d;
     sentiment_score := sentiment_score d;
     sentiment_label := sentiment_label d;
     upvotes := upvotes d; created_at := created_at d |}.
Definition set_professor_name (v : option string) (d : comment_data)
    : comment_data :=
  {| text := text d; source := source d; course_code := course_code d;
     source_url := source_url d; tags := tags d;
     professor_name := v;
     sentiment_score := sentiment_score d;
     sentiment_label := sentiment_label d;
     upvotes := upvotes d; created_at := created_at d |}.

Section Scrape.
Context {L : Libraries}.
(* The sets of valid course codes and professor names. *)
Variable courses professors : gset string.

Definition detect_sentiment (text : string) : Q * string :=
  let sentiment_score := polarity text in
  let sentiment_label :=
    if negb (Qle_bool sentiment_score (1 # 2)) then "very positive"
    else if negb (Qle_bool sentiment_score (1 # 5)) then "positive"
    else if negb (Qle_bool (- (1 # 2)) sentiment_score) then "very negative"
    else if negb (Qle_bool (- (1 # 5)) sentiment_score) then "negative"
    else "neutral" in
  (sentiment_score, sentiment_label).

(* The body of the loop over the comments of a post.  The state is the
   variable [prof_name], which a comment may set for the comments after
   it, and [results]; [post_course_code] is the course code of the
   post. *)
Definition comment_step (p : post) (post_course_code : option string)
    (st : option string * list comment_data) (c : comment)
    : option string * list comment_data :=
  let '(prof_name, results) := st in
  if negb (is_comment_of_interest c) then st
  else
    let temp_course_code :=
      if truthy post_course_code then post_course_code
      else extract_course_code_from_comment c in
    if negb (truthy temp_course_code) then st
    else
      let prof_name :=
        if negb (truthy prof_name) then extract_prof_name_from_comment c
        else prof_name in
      let '(score, label) := detect_sentiment (body c) in
      let data :=
        {| text := body c; source := "reddit";
           course_code := temp_course_code; source_url := url p;
           tags := detect_tags (body c); professor_name := prof_name;
           sentiment_score := score;
           sentiment_label := label;
           upvotes := c_score c;
           created_at := utc_date (created_utc c) |} in
      (* if temp_course_code is None: if prof_name is not None: ... *)
      let '(data, results) :=
        match temp_course_code, prof_name with
        | None, Some _ =>
            let data := set_course_code (Some "general_course") data in
            (data, results ++ [data])
        | _, _ => (data, results)
        end in
      (* if temp_course_code is not None and temp_course_code in courses *)
      match temp_course_code with
      | Some code =>
          if bool_decide (code ∈ courses) then
            let data :=
              set_professor_name
                (match prof_name with
                 | Some n =>
                     if bool_decide (n ∈ professors) then Some n
                     else Some "general_prof"
                 | None => Some "general_prof"
                 end) data in
            (prof_name, results ++ [data])
          else (prof_name, results)
      | None => (prof_name, results)
      end.

(* The body of the loop over the posts. *)
Definition post_step (processed_posts_urls : gset string)
    (results : list comment_data) (p : post) : list comment_data :=
  if bool_decide (url p ∈ processed_posts_urls) then results
  else if negb (is_post_of_interest p) then results
  else
    let post_course_code :=
      let code := extract_course_code_from_post p in
      if negb (truthy code) then None else code in
    let prof_name :=
      let name := extract_prof_name_from_post p in
      if negb (truthy name) then None else name in
    snd (foldl (comment_step p post_course_code) (prof_name, results)
           (comments p)).

(* [processed] is the source_url column of the reddit rows of rag_chunks,
   [new_posts] is subreddit.new(limit=1000).  The rows inserted into
   rag_chunks are the elements of the result, in order. *)
Definition scrape_and_store (processed : list string) (new_posts : list post)
    : list comment_data :=
  let processed_posts_urls : gset string := list_to_set processed in
  foldl (post_step processed_posts_urls) [] new_posts.
End Scrape.

End Reddit.

(** ** course-scraper.py *)

Module Course.

(* A row of the DataFrame of scraped courses. *)
Record row : Type := {
  course_code : string;
  course_name : string;
  course_description : option string;
  offering_faculty : option string;
  learning_hours : option string;
  course_learning_outcomes : list string;
  course_requirements : option string;
  course_equivalencies : option string;
  course_units : string;
}.

(* A DataFrame: its rows in order, each with its index label. *)
Definition frame : Type := list (Z * row).

(* The frame grown by pd.concat([...], ignore_index=True), one scraped
   course after the other: the labels are 0, 1, 2, ... *)
Definition concat_rows (rows : list row) : frame :=
  imap (λ i r, (Z.of_nat i, r)) rows.

(* course_data.drop_duplicates(subset=["course_code"], inplace=True): the
   first row of each course code stays, with the label it had. *)
Fixpoint drop_duplicates_from (seen : gset string) (df : frame) : frame :=
  match df with
  | [] => []
  | (index, r) :: df' =>
      if bool_decide (course_code r ∈ seen) then drop_duplicates_from seen df'
      else (index, r) :: drop_duplicates_from ({[course_code r]} ∪ seen) df'
  end.
Definition drop_duplicates (df : frame) : frame := drop_duplicates_from ∅ df.

(* The end of scrape_all_course, from the courses scraped page after page.
   The replacement of nan and the infinities by None leaves the rows as
   they are: they hold texts, lists and None. *)
Definition scrape_all_course (scraped : list row) : frame :=
  drop_duplicates (concat_rows scraped).

(* A row of the courses table, as selected. *)
Record existing_course : Type := {
  e_course_code : string;
  e_average_gpa : option Q;
  e_average_enrollment : option Q;
}.

(* An element of the list handed to upsert. *)
Record payload : Type := {
  pl_course_code : string;
  pl_course_name : string;
  pl_course_description : option string;
  pl_offering_faculty : option string;
  pl_learning_hours : option string;
  pl_course_learning_outcomes : list string;
  pl_course_requirements : option string;
  pl_course_equivalencies : option string;
  pl_course_units : string;
  average_gpa : option Q;
  average_enrollment : option Q;
}.

Definition existing_courses_of (data : list existing_course)
    : gmap string (option Q * option Q) :=
  foldl (λ d course,
           <[e_course_code course :=
               (e_average_gpa course, e_average_enrollment course)]> d)
        ∅ data.

(* The dict appended to upsert_payload for one row. *)
Definition payload_of (existing_courses : gmap string (option Q * option Q))
    (r : row) : payload :=
  let avg_gpa :=
    match existing_courses !! course_code r with
    | Some stored => stored.1
    | None => None
    end in
  let avg_enroll :=
    match existing_courses !! course_code r with
    | Some stored => stored.2
    | None => None
    end in
  {| pl_course_code := course_code r;
     pl_course_name := course_name r;
     pl_course_description := course_description r;
     pl_offering_faculty := offering_faculty r;
     pl_learning_hours := learning_hours r;
     pl_course_learning_outcomes := course_learning_outcomes r;
     pl_course_requirements := course_requirements r;
     pl_course_equivalencies := course_equivalencies r;
     pl_course_units := course_units r;
     average_gpa := avg_gpa;
     average_enrollment := avg_enroll |}.

(* The body of the loop over course_data.iterrows().  The state is
   upsert_payload and the batches handed to upsert so far; [len] is
   len(course_data). *)
Definition upsert_step (existing_courses : gmap string (option Q * option Q))
    (batch_size : Z) (len : nat)
    (st : list payload * list (list payload)) (ir : Z * row)
    : list payload * list (list payload) :=
  let '(upsert_payload, upserted) := st in
  let '(index, r) := ir in
  let upsert_payload := upsert_payload ++ [payload_of existing_courses r] in
  if (Z.of_nat (length upsert_payload) =? batch_size)%Z
     || (index =? Z.of_nat len - 1)%Z
  then ([], upserted ++ [upsert_payload])
  else (upsert_payload, upserted).

(* upsert_payload at the end of the loop, and the batches upserted *)
Definition upsert_loop (existing : list existing_course) (course_data : frame)
    (batch_size : Z) : list payload * list (list payload) :=
  foldl (upsert_step (existing_courses_of existing) batch_size
           (length course_data))
        ([], []) course_data.

(* What the function writes: the batches upserted into the courses table,
   in order. *)
Definition upsert_course_data_to_supabase (existing : list existing_course)
    (course_data : frame) (batch_size : Z) : list (list payload) :=
  snd (upsert_loop existing course_data batch_size).

Definition default_batch_size : Z := 50.

End Course.

(** ** rmp_scraper.py: the main program *)

Module RmpMain.
Import PyStr Rmp.

(* get_all_valid_courses: the set of the course codes of the courses table
   other than "general_course", as the list of its elements; their order
   stands for the order in which the set is iterated. *)
Definition get_all_valid_courses (course_codes : list string) : list string :=
  foldl (λ valid_course_codes c,
           if bool_decide (c ≠ "general_course")
           then set_add c valid_course_codes else valid_course_codes)
        [] course_codes.

(* What the browser and the database give for a professor: the page, None
   when driver.get runs into its timeout, the (text, created_at) of the
   rows of rag_chunks of the professor, and the number of turns at whose
   end "Load More Ratings" is clickable. *)
Record visit : Type := {
  v_page : option prof_page;
  v_existing : list (string * string);
  v_clicks : nat;
}.

(* A write to the database. *)
Inductive write : Type :=
| UpsertProfessor (row : updated_prof)
| InsertChunks (batch : list chunk).

Section Main.
Context {L : Libraries}.

(* scrape_professor_comments with its writes.  The timeout of driver.get
   is caught and ends the call; otherwise the page is one on which the
   rating value and the course menu are found.  An exception leaves the
   call before anything is written. *)
Definition scrape_professor_comments_io (p : prof_to_scrape)
    (valid_courses : list string) (v : visit) : result (list write) :=
  match v_page v with
  | None => Ok []
  | Some page =>
      out ← scrape_professor_comments p valid_courses page (v_existing v)
              (v_clicks v);
      mret (UpsertProfessor out.1
              :: match out.2 with
                 | Some batch => [InsertChunks batch]
                 | None => []
                 end)
  end.

(* for prof in professors_to_scrape: the writes done, and the exception
   that ends the program, if any. *)
Fixpoint for_professors (valid_courses : list string)
    (browser : prof_to_scrape → visit)
    (professors_to_scrape : list prof_to_scrape)
    : list write * option exn :=
  match professors_to_scrape with
  | [] => ([], None)
  | p :: rest =>
      match scrape_professor_comments_io p valid_courses (browser p) with
      | Raise e => ([], Some e)
      | Ok writes =>
          let '(writes', e) := for_professors valid_courses browser rest in
          (writes ++ writes', e)
      end
  end.

(* [views] is what the search page shows turn after turn, [previous] the
   rows of the professors table and [course_codes] the course_code column
   of the courses table. *)
Definition main (views : list (list card * show_more))
    (previous : list previous_professor) (course_codes : list string)
    (browser : prof_to_scrape → visit) : list write * option exn :=
  let professors := scrape_professors false views in
  let professors_to_scrape := to_scrape_professor previous professors in
  let valid_courses := get_all_valid_courses course_codes in
  for_professors valid_courses browser professors_to_scrape.
End Main.

End RmpMain.

(** ** reddit_scraper.py: the main program *)

Module RedditMain.
Import PyStr Reddit.

(* The main program: the sets of valid course codes and professor names,
   from the course_code column of the courses table and the name column of
   the professors table. *)
Definition valid_courses_of (course_codes : list string) : gset string :=
  list_to_set (filter (λ c, c ≠ "general_course") course_codes).
Definition valid_professors_of (names : list string) : gset string :=
  list_to_set (filter (λ n, n ≠ "general_prof") names).

Definition main {L : Libraries} (course_codes names processed : list string)
    (new_posts : list post) : list comment_data :=
  scrape_and_store (valid_courses_of course_codes) (valid_professors_of names)
    processed new_posts.

End RedditMain.

(** ** Concrete inputs *)

Module Examples.

Definition nl : string := String "010" EmptyString.

(* What the libraries return on the texts of the examples. *)
Definition flat_polarity (_ : string) : Q := 0 # 1.
Definition float_table (s : string) : option Q :=
  if String.eqb s "4.5" then Some (45 # 10)
  else if String.eqb s "3.1" then Some (31 # 10)
  else if String.eqb s "5.0" then Some (5 # 1)
  else if String.eqb s "2.0" then Some (2 # 1)
  else if String.eqb s "80" then Some (80 # 1)
  else None.
Definition date_table (s : string) : option string :=
  if String.eqb s "Jan 5, 2024" then Some "2024-01-05"
  else if String.eqb s "Dec 12, 2023" then Some "2023-12-12"
  else if String.eqb s "Nov 3, 2023" then Some "2023-11-03"
  else None.
Definition int_table (s : string) : option Z :=
  if String.eqb s "10" then Some 10%Z
  else if String.eqb s "12" then Some 12%Z
  else if String.eqb s "3" then Some 3%Z
  else None.
Definition fixed_date (_ : Q) : string := "2024-01-05".

Definition libraries : Libraries :=
  {| polarity := flat_polarity; py_float := float_table;
     py_int := int_table; strptime_iso := date_table;
     utc_date := fixed_date |}.

Definition valid_courses : list string := ["CISC 121"; "CISC 124"].

(** A professor's page with one review, on CISC121. *)
Definition professor (name id : string) (num_ratings : Z) : Rmp.professor :=
  {| Rmp.p_id := id; Rmp.p_name := name;
     Rmp.p_department := "Computer Science";
     Rmp.p_school := "Queen's University at Kingston";
     Rmp.p_overall_rating := "4.5"; Rmp.p_num_ratings := num_ratings;
     Rmp.p_url := "https://www.ratemyprofessors.com/professor/" +:+ id |}.

Definition smith (watermark : option string) : Rmp.prof_to_scrape :=
  {| Rmp.prof := professor "John Smith" "1001" 12;
     Rmp.latest_comment_date := watermark |}.

Definition review (date header comment : string) : Rmp.review_block :=
  {| Rmp.rating_div := true; Rmp.timestamp := Some date;
     Rmp.class_header := Some header; Rmp.quality_elem := Some "5.0";
     Rmp.difficulty_elem := Some "2.0"; Rmp.comments_div := Some comment;
     Rmp.tag_spans := ["Amazing lectures"] |}.

Definition review_jan : Rmp.review_block :=
  review "Jan 5th, 2024" "CISC121" "Clear lectures and fair exams.".
Definition review_dec : Rmp.review_block :=
  review "Dec 12th, 2023" "CISC124" "Assignments were long but useful.".
Definition review_nov : Rmp.review_block :=
  review "Nov 3rd, 2023" "CISC124" "Good course, tough midterm though.".

Definition page (items : list Rmp.review_block) : Rmp.prof_page :=
  {| Rmp.rating_elem := Some "4.5";
     Rmp.feedback_numbers := ["80%"; "3.1"];
     Rmp.teacher_tags := ["Amazing lectures"];
     Rmp.menu_text :=
       "All courses" +:+ nl +:+ "CISC121 (1)" +:+ nl +:+ "CISC124 (2)";
     Rmp.ratings_list := Some items |}.

(** Scraped courses, the second a duplicate of the first. *)
Definition course (code name : string) : Course.row :=
  {| Course.course_code := code; Course.course_name := name;
     Course.course_description := None; Course.offering_faculty := None;
     Course.learning_hours := None; Course.course_learning_outcomes := [];
     Course.course_requirements := None;
     Course.course_equivalencies := None; Course.course_units := "3.00" |}.

Definition scraped_with_duplicate : list Course.row :=
  [course "CISC 121" "Introduction to Computing Science I";
   course "CISC 121" "Introduction to Computing Science I";
   course "CISC 124" "Introduction to Computing Science II"].

(** A post that names no course, with a comment that names a professor. *)
Definition comment_on_smith : Reddit.comment :=
  {| Reddit.body := "Dr. John Smith was a great lecturer overall";
     Reddit.c_score := 5; Reddit.created_utc := 1704412800 # 1 |}.

Definition post_without_code : Reddit.post :=
  {| Reddit.url := "https://www.reddit.com/r/queensuniversity/comments/abc/";
     Reddit.title := "Which electives did you enjoy";
     Reddit.selftext := "Looking for courses to take next term";
     Reddit.is_self := true; Reddit.over_18 := false;
     Reddit.locked := false; Reddit.score := 7; Reddit.num_comments := 1;
     Reddit.comments := [comment_on_smith] |}.

Definition end_to_end : string :=
  "This course (CISC 124) was NOT easy but the prof, Dr. John Smith, was great".

End Examples.

(** ** Vocabulary of the properties *)

(* The last element of a list that satisfies a predicate. *)
Definition last_such {A} (P : A → Prop) `{∀ x, Decision (P x)} (l : list A)
    : option A :=
  last (filter P l).

(* TypeError is the only exception of the mapping loop. *)
Definition ok_or_type_error {A} (r : result A) : Prop :=
  match r with
  | Ok _ => True
  | Raise e => e = TypeError
  end.

(* A payload entry carries the averages of the last row of the prior snapshot
   with its course code, and null when there is none. *)
Definition carries_stored_averages (data : list Course.existing_course)
    (pl : Course.payload) : Prop :=
  match last_such (λ c, Course.e_course_code c = Course.pl_course_code pl)
          data with
  | Some c =>
      Course.average_gpa pl = Course.e_average_gpa c
      ∧ Course.average_enrollment pl = Course.e_average_enrollment c
  | None => Course.average_gpa pl = None ∧ Course.average_enrollment pl = None
  end.

(* The row of the prior snapshot that the dict keeps for a name: the last
   one with that name, and none for the name "general_prof". *)
Definition stored_professor (previous : list Rmp.previous_professor)
    (name : string) : option Rmp.previous_professor :=
  if decide (name = "general_prof") then None
  else last_such (λ row, Rmp.prev_name row = name) previous.

(* What decides on a professor: selected with the watermark [w], or not. *)
Definition selected (previous : list Rmp.previous_professor)
    (p : Rmp.professor) (w : option string) : Prop :=
  match stored_professor previous (Rmp.p_name p) with
  | Some row =>
      Rmp.prev_num_ratings row ≠ Some (Rmp.p_num_ratings p)
      ∧ w = Rmp.prev_latest_comment_date row
  | None => w = None
  end.

(* The dict built by the comprehension of scrape_professors. *)
Definition dict_by_name (profs : list Rmp.professor)
    : list (string * Rmp.professor) :=
  foldl (λ d prof, Rmp.dict_set (Rmp.p_name prof) prof d) [] profs.

(* The professors collected have distinct ids, all of them seen. *)
Definition ids_seen (st : Rmp.collect_state) : Prop :=
  NoDup (Rmp.p_id <$> Rmp.professors st)
  ∧ ∀ p, p ∈ Rmp.professors st → Rmp.p_id p ∈ Rmp.seen_professor_ids st.

(* The initial states of the loops of rmp_scraper.py. *)
Definition no_professor : Rmp.collect_state :=
  {| Rmp.professors := []; Rmp.seen_professor_ids := ∅;
     Rmp.previous_count := 0 |}.
Definition no_review : Rmp.loop_state :=
  {| Rmp.reviews := []; Rmp.seen_reviews_set := ∅;
     Rmp.stop_scraping := false |}.

(* The state when the review loops are left at the watermark. *)
Definition stopped (st : Rmp.loop_state) : Rmp.loop_state :=
  {| Rmp.reviews := Rmp.reviews st;
     Rmp.seen_reviews_set := Rmp.seen_reviews_set st;
     Rmp.stop_scraping := true |}.

(* A review block, not an ad, whose date is read and is not newer than the
   professor's watermark. *)
Definition at_watermark {L : Libraries} (env : Rmp.review_env)
    (block : Rmp.review_block) : bool :=
  Rmp.rating_div block
  && match Rmp.date_of block with
     | Ok date => Rmp.not_newer env date
     | Raise _ => false
     end.

(* What a review appended by the loop looks like. *)
Definition appended_ok (env : Rmp.review_env) (r : Rmp.parsed_review) : Prop :=
  Rmp.not_newer env (Rmp.r_date r) = false
  ∧ Rmp.r_course_code r = Rmp.course env.

(* The local variables of the review loop in the examples. *)
Definition example_env (watermark : option string) : Rmp.review_env :=
  {| Rmp.env_prof := Examples.smith watermark;
     Rmp.overall_rating := Some (45 # 10);
     Rmp.level_of_difficulty := Some (31 # 10);
     Rmp.course_code_mappings :=
       {[ "CISC121" := Some ["CISC 121"]; "CISC124" := Some ["CISC 124"] ]};
     Rmp.existing_reviews_set := ∅;
     Rmp.course := "CISC124 (2)" |}.

(* What the mapping pass stores for a raw code when it does not raise: the
   one candidate, or None. *)
Definition mapped_value (valid_courses : list string) (st : Rmp.derived)
    (raw_code : string) : option (list string) :=
  match Rmp.matches_of valid_courses st raw_code with
  | Some [c] => Some [c]
  | _ => None
  end.

(* Every derived course is a canonical one. *)
Definition derived_canonical (valid_courses : list string) (st : Rmp.derived)
    : Prop :=
  ∀ c, c ∈ Rmp.derived_valid_courses st → c ∈ valid_courses.

(* A menu line as the loop over raw_courses cleans it. *)
Definition menu_entry (course : string) : string :=
  PyStr.strip (Re.sub Rmp.count_re (λ _, "") course).

(* What tells a review from the ones already stored or seen: the comment
   and the date. *)
Definition review_key (r : Rmp.parsed_review) : string * string :=
  (Rmp.r_comment r, Rmp.r_date r).





(* A professor read off one of the cards of the views. *)
Definition read_off {L : Libraries} (views : list (list Rmp.card * Rmp.show_more))
    (p : Rmp.professor) : Prop :=
  ∃ cards button c,
    (cards, button) ∈ views ∧ c ∈ cards ∧ Rmp.extract_card c = Ok p.



(* The names of the professors selected. *)
Definition names_of (ps : list Rmp.prof_to_scrape) : list string :=
  (λ x, Rmp.p_name (Rmp.prof x)) <$> ps.

(* The closed vocabulary of tags, in the order detect_tags tests them. *)
Definition tag_vocabulary : list string :=
  ["easy"; "hard"; "professor_review"; "course_structure"; "tips"].

(* What every row stored by the Reddit pipeline satisfies. *)
Definition stored_from (courses professors : gset string) (p : Reddit.post)
    (d : Reddit.comment_data) : Prop :=
  Reddit.source d = "reddit"
  ∧ Reddit.source_url d = Reddit.url p
  ∧ (∃ code, Reddit.course_code d = Some code ∧ code ∈ courses)
  ∧ (∃ name, Reddit.professor_name d = Some name
             ∧ (name ∈ professors ∨ name = "general_prof"))
  ∧ ∃ c, c ∈ Reddit.comments p
         ∧ Reddit.is_comment_of_interest c = true
         ∧ Reddit.text d = Reddit.body c
         ∧ Reddit.upvotes d = Reddit.c_score c.

(* The professor name stored for a resolved name. *)
Definition stored_name (professors : gset string) (name : string) : string :=
  if bool_decide (name ∈ professors) then name else "general_prof".

(** * Properties *)

(** ** Dict comprehensions *)

Lemma last_such_snoc {A} (P : A → Prop) `{∀ x, Decision (P x)} (l : list A)
    (x : A) :
  last_such P (l ++ [x]) = if decide (P x) then Some x else last_such P l.
Proof.
  unfold last_such. rewrite filter_app, filter_cons, filter_nil.
  destruct (decide (P x)).
  - by rewrite last_snoc.
  - by rewrite app_nil_r.
Qed.

Lemma last_such_holds {A} (P : A → Prop) `{∀ x, Decision (P x)} (l : list A)
    (x : A) :
  last_such P l = Some x → x ∈ l ∧ P x.
Proof.
  unfold last_such. intros Hlast.
  apply last_Some_elem_of in Hlast.
  by apply list_elem_of_filter in Hlast as [? ?].
Qed.

Lemma last_such_None {A} (P : A → Prop) `{∀ x, Decision (P x)} (l : list A) :
  last_such P l = None ↔ ∀ x, x ∈ l → ¬ P x.
Proof.
  unfold last_such. rewrite last_None. split.
  - intros Hnil x Hx HP.
    assert (x ∈ filter P l) as Hin by (apply list_elem_of_filter; done).
    rewrite Hnil in Hin. by apply not_elem_of_nil in Hin.
  - intros Hall. destruct (filter P l) as [|x l'] eqn:Hf; [done|].
    assert (x ∈ filter P l) as Hin by (rewrite Hf; left).
    apply list_elem_of_filter in Hin as [HP Hx]. by destruct (Hall x Hx).
Qed.

(** ** The course upsert *)

Section CourseUpsert.
Import Course.

(* The dict of the prior snapshot holds, for a course code, the averages of
   the last row of the snapshot with that code. *)
Lemma existing_courses_lookup (data : list existing_course) (code : string) :
  existing_courses_of data !! code
  = (λ c, (e_average_gpa c, e_average_enrollment c))
      <$> last_such (λ c, e_course_code c = code) data.
Proof.
  unfold existing_courses_of.
  induction data as [|c data IH] using rev_ind; [done|].
  rewrite foldl_app. simpl. rewrite last_such_snoc.
  destruct (decide (e_course_code c = code)) as [->|Hne].
  - by rewrite lookup_insert_eq.
  - by rewrite lookup_insert_ne.
Qed.

(* Every payload entry that the loop builds is in a batch upserted or still
   in upsert_payload, in the order of the rows. *)
Lemma upsert_loop_entries (d : gmap string (option Q * option Q))
    (batch_size : Z) (len : nat) (df : frame)
    (st : list payload * list (list payload)) :
  let st' := foldl (upsert_step d batch_size len) st df in
  concat st'.2 ++ st'.1 = concat st.2 ++ st.1 ++ (payload_of d <$> df.*2).
Proof.
  revert st. induction df as [|[index r] df IH]; intros [pl sent]; simpl.
  - by rewrite app_nil_r.
  - rewrite IH. unfold upsert_step.
    destruct ((Z.of_nat (length (pl ++ [payload_of d r])) =? batch_size)%Z
              || (index =? Z.of_nat len - 1)%Z); simpl.
    + rewrite concat_app. simpl. by rewrite app_nil_r, <- !app_assoc.
    + by rewrite <- !app_assoc.
Qed.

Lemma payload_of_carries (data : list existing_course) (r : row) :
  carries_stored_averages data (payload_of (existing_courses_of data) r).
Proof.
  unfold carries_stored_averages, payload_of.
  rewrite existing_courses_lookup. simpl.
  by destruct (last_such _ data).
Qed.

Lemma concat_rows_snoc (rows : list row) (r : row) :
  concat_rows (rows ++ [r])
  = concat_rows rows ++ [(Z.of_nat (length rows), r)].
Proof.
  unfold concat_rows. rewrite imap_app. simpl.
  by rewrite Nat.add_0_r.
Qed.

Lemma concat_rows_length (rows : list row) :
  length (concat_rows rows) = length rows.
Proof. unfold concat_rows. apply length_imap. Qed.

Lemma concat_rows_rows (rows : list row) : (concat_rows rows).*2 = rows.
Proof.
  induction rows as [|r rows IH] using rev_ind; [done|].
  by rewrite concat_rows_snoc, fmap_app, IH.
Qed.

(* When no duplicate was dropped the labels are the positions, the last row
   is recognised and every row is written. *)
Lemma range_index_writes_all_rows (existing : list existing_course)
    (rows : list row) (batch_size : Z) :
  concat (upsert_course_data_to_supabase existing (concat_rows rows) batch_size)
  = payload_of (existing_courses_of existing) <$> rows.
Proof.
  unfold upsert_course_data_to_supabase, upsert_loop.
  pose proof (upsert_loop_entries (existing_courses_of existing) batch_size
                (length (concat_rows rows)) (concat_rows rows) ([], []))
    as Hall.
  simpl in Hall. rewrite concat_rows_rows in Hall. rewrite <- Hall.
  destruct rows as [|r rows _] using rev_ind; [done|].
  rewrite concat_rows_length, concat_rows_snoc, foldl_app, length_app. simpl.
  destruct (foldl _ _ (concat_rows rows)) as [pl sent].
  unfold upsert_step.
  replace (Z.of_nat (length rows) =? Z.of_nat (length rows + 1) - 1)%Z
    with true by (symmetry; apply Z.eqb_eq; lia).
  rewrite orb_true_r. simpl. by rewrite app_nil_r.
Qed.
End CourseUpsert.

(** C2: every payload entry built by upsert_course_data_to_supabase (the
    entries of the batches upserted and those still in upsert_payload at the
    end are the entries built for the rows, in order) carries the average_gpa
    and average_enrollment stored in the prior snapshot for its course code,
    and null for both when the snapshot has no such course.  An existing
    course with average_gpa 3.4 gives a payload entry with average_gpa 3.4;
    the scraped row has no such field. *)
Theorem upsert_preserves_averages (existing : list Course.existing_course)
    (course_data : Course.frame) (batch_size : Z) :
  let built :=
    concat (Course.upsert_course_data_to_supabase existing course_data
              batch_size)
    ++ (Course.upsert_loop existing course_data batch_size).1 in
  built
  = Course.payload_of (Course.existing_courses_of existing) <$> course_data.*2
  ∧ Forall (carries_stored_averages existing) built
  ∧ Course.upsert_course_data_to_supabase
      [{| Course.e_course_code := "CISC 124";
          Course.e_average_gpa := Some (34 # 10);
          Course.e_average_enrollment := Some (250 # 1) |}]
      (Course.scrape_all_course
         [Examples.course "CISC 124" "Introduction to Computing Science II";
          Examples.course "CISC 121" "Introduction to Computing Science I"])
      Course.default_batch_size
    = [[ {| Course.pl_course_code := "CISC 124";
            Course.pl_course_name := "Introduction to Computing Science II";
            Course.pl_course_description := None;
            Course.pl_offering_faculty := None;
            Course.pl_learning_hours := None;
            Course.pl_course_learning_outcomes := [];
            Course.pl_course_requirements := None;
            Course.pl_course_equivalencies := None;
            Course.pl_course_units := "3.00";
            Course.average_gpa := Some (34 # 10);
            Course.average_enrollment := Some (250 # 1) |};
         {| Course.pl_course_code := "CISC 121";
            Course.pl_course_name := "Introduction to Computing Science I";
            Course.pl_course_description := None;
            Course.pl_offering_faculty := None;
            Course.pl_learning_hours := None;
            Course.pl_course_learning_outcomes := [];
            Course.pl_course_requirements := None;
            Course.pl_course_equivalencies := None;
            Course.pl_course_units := "3.00";
            Course.average_gpa := None;
            Course.average_enrollment := None |} ]].
Proof.
  intros built.
  assert (built
          = Course.payload_of (Course.existing_courses_of existing)
              <$> course_data.*2) as Hbuilt.
  { unfold built, Course.upsert_course_data_to_supabase, Course.upsert_loop.
    by rewrite upsert_loop_entries. }
  split; [exact Hbuilt|]. split.
  - rewrite Hbuilt. apply Forall_fmap, Forall_forall. intros r _.
    apply payload_of_carries.
  - vm_compute. reflexivity.
Qed.

(** C4 at a failing input: three courses are scraped, the second a duplicate
    of the first; drop_duplicates leaves two rows, labelled 0 and 2; with the
    default batch size the loop never sees a label equal to
    len(course_data) - 1 = 1, so no batch is upserted and both rows stay
    unwritten in upsert_payload. *)
Theorem duplicate_course_leaves_rows_unwritten :
  let course_data := Course.scrape_all_course Examples.scraped_with_duplicate in
  course_data.*1 = [0%Z; 2%Z]
  ∧ Course.upsert_course_data_to_supabase [] course_data
      Course.default_batch_size = []
  ∧ length (Course.upsert_loop [] course_data Course.default_batch_size).1 = 2.
Proof. vm_compute. by repeat split. Qed.

(** ** The course-code reconciler *)

Section Reconciler.
Import PyStr Re Rmp.

Lemma map_raises_on_None (valid_courses : list string) (st : derived)
    (raw_code : string) :
  matches_of valid_courses st raw_code = None →
  map_one valid_courses st raw_code = Raise TypeError.
Proof. unfold map_one. by intros ->. Qed.

(* Once the mapping loop has raised, it stays raised. *)
Lemma mapping_loop_raised (valid_courses : list string) (st : derived)
    (e : exn) (codes : list string) :
  foldl (map_step valid_courses st) (Raise e) codes = Raise e.
Proof. induction codes as [|raw codes IH]; [done|]. simpl. exact IH. Qed.

Lemma map_step_ok_or_type_error (valid_courses : list string) (st : derived)
    (acc : result (gmap string (option (list string)))) (raw_code : string) :
  ok_or_type_error acc →
  ok_or_type_error (map_step valid_courses st acc raw_code).
Proof.
  destruct acc as [m|e]; simpl; [intros _|done].
  unfold map_step, map_one. simpl.
  destruct (matches_of valid_courses st raw_code) as [matches|]; [|done].
  by destruct (length matches =? 1).
Qed.

(* Whatever the other raw codes are, one raw code whose [matches] ends as
   None makes the whole call raise TypeError: no mapping is returned. *)
Lemma clean_and_map_raises (course_codes valid_courses : list string)
    (raw_code : string) :
  raw_code ∈ course_codes →
  matches_of valid_courses (derive course_codes valid_courses) raw_code = None →
  clean_and_map_course_codes course_codes valid_courses = Raise TypeError.
Proof.
  unfold clean_and_map_course_codes.
  generalize (derive course_codes valid_courses) as st.
  intros st Hin Hnone.
  assert (ok_or_type_error
            (Ok ∅ : result (gmap string (option (list string))))) as Hacc
    by done.
  revert Hacc.
  generalize (Ok ∅ : result (gmap string (option (list string)))) as acc.
  induction Hin as [raw codes|raw y codes Hin IH]; intros acc Hacc.
  - assert (map_step valid_courses st acc raw = Raise TypeError) as Hstep.
    { destruct acc as [m|e]; simpl in Hacc.
      - unfold map_step. simpl.
        by rewrite (map_raises_on_None _ _ _ Hnone).
      - by subst e. }
    simpl. rewrite Hstep. apply mapping_loop_raised.
  - simpl. apply IH; [done|]. by apply map_step_ok_or_type_error.
Qed.

(* A letter is not a digit. *)
Lemma is_alpha_not_digit (c : ascii) : is_alpha c = true → is_digit c = false.
Proof.
  unfold is_alpha, is_upper, is_lower, is_digit, in_range.
  generalize (code c) as n. intros n Halpha.
  apply orb_true_iff in Halpha as [Hup|Hlow];
    apply andb_true_iff in Hup || apply andb_true_iff in Hlow.
  - destruct Hup as [H1%Nat.leb_le H2%Nat.leb_le].
    apply andb_false_iff. right. apply Nat.leb_gt. lia.
  - destruct Hlow as [H1%Nat.leb_le H2%Nat.leb_le].
    apply andb_false_iff. right. apply Nat.leb_gt. lia.
Qed.

(* \d+ finds nothing in a text of letters. *)
Lemma search_digits_in_letters (s : string) (prev : option ascii) :
  sall is_alpha s = true → search_from digits_re prev s = None.
Proof.
  revert prev. induction s as [|c s IH]; intros prev Hs; [done|].
  simpl in Hs. apply andb_true_iff in Hs as [Hc Hs].
  simpl. unfold match_here. simpl.
  rewrite (is_alpha_not_digit c Hc). by rewrite (IH (Some c) Hs).
Qed.

Lemma findall_digits_in_letters (s : string) :
  sall is_alpha s = true → findall digits_re s = [].
Proof.
  intros Hs. unfold findall. simpl.
  by rewrite (search_digits_in_letters s None Hs).
Qed.

Lemma isalpha_not_isdigit (s : string) : isalpha s = true → isdigit s = false.
Proof.
  unfold isalpha, isdigit. destruct s as [|c s]; [done|]. simpl.
  intros [Hc _]%andb_true_iff. by rewrite (is_alpha_not_digit c Hc).
Qed.

(* The purely-letters branch: [matches] is None. *)
Lemma matches_of_letters (valid_courses : list string) (st : derived)
    (raw_code : string) :
  isalpha (cleaned_of raw_code) = true →
  valid_courses_no_space valid_courses !! cleaned_of raw_code = None →
  matches_of valid_courses st raw_code = None.
Proof.
  intros Halpha Hexact. unfold matches_of. rewrite Hexact.
  assert (sall is_alpha (cleaned_of raw_code) = true) as Hall.
  { unfold isalpha in Halpha. by apply andb_true_iff in Halpha as [_ ?]. }
  rewrite (findall_digits_in_letters _ Hall).
  rewrite (isalpha_not_isdigit _ Halpha). simpl.
  rewrite Halpha. by destruct (rmatch prefix_re (cleaned_of raw_code)).
Qed.

(* Every raw code that is letters only once cleaned, and is not a canonical
   code with its spaces removed, makes the call raise TypeError, whatever the
   other raw codes are. *)
Lemma letters_only_code_raises (course_codes valid_courses : list string)
    (raw_code : string) :
  raw_code ∈ course_codes →
  isalpha (cleaned_of raw_code) = true →
  valid_courses_no_space valid_courses !! cleaned_of raw_code = None →
  clean_and_map_course_codes course_codes valid_courses = Raise TypeError.
Proof.
  intros Hin Halpha Hexact.
  apply (clean_and_map_raises _ _ raw_code Hin).
  by apply matches_of_letters.
Qed.
End Reconciler.

(** C3, as stated, fails: with the canonical set {"CISC 121", "CISC 124"}
    and the one raw input "CISC121124", the mapping pass does not produce two
    candidates and the input is not mapped to none. *)
Lemma concatenated_label_not_ambiguous :
  ¬ ((∃ matches,
        Rmp.matches_of ["CISC 121"; "CISC 124"]
          (Rmp.derive ["CISC121124"] ["CISC 121"; "CISC 124"]) "CISC121124"
        = Some matches ∧ length matches = 2)
     ∧ (λ m : gmap string (option (list string)), m !! "CISC121124")
         <$> Rmp.clean_and_map_course_codes ["CISC121124"]
               ["CISC 121"; "CISC 124"]
       = Ok (Some None)).
Proof.
  intros [_ H]. revert H. vm_compute. discriminate.
Qed.

(** C3, amended: with the canonical set {"CISC 121", "CISC 124"} (in either
    iteration order) and the raw input "CISC121124" alone, the derivation
    pass confirms "CISC 121" only (the first three digits of the digit run),
    the mapping pass produces that one candidate and "CISC121124" is mapped
    to ["CISC 121"]; when the raw set also holds "CISC124" (in either
    iteration order), the mapping pass produces the two candidates
    "CISC 121" and "CISC 124" and "CISC121124" is mapped to none. *)
Theorem concatenated_label_mapping :
  Forall (λ valid,
      Rmp.derived_valid_courses (Rmp.derive ["CISC121124"] valid)
        = {[ "CISC 121" ]}
      ∧ Rmp.matches_of valid (Rmp.derive ["CISC121124"] valid) "CISC121124"
        = Some ["CISC 121"]
      ∧ Rmp.clean_and_map_course_codes ["CISC121124"] valid
        = Ok {[ "CISC121124" := Some ["CISC 121"] ]}
      ∧ Forall (λ raw,
           Rmp.matches_of valid (Rmp.derive raw valid) "CISC121124"
             = Some ["CISC 121"; "CISC 124"]
           ∧ (λ m : gmap string (option (list string)), m !! "CISC121124")
               <$> Rmp.clean_and_map_course_codes raw valid
             = Ok (Some None))
          [["CISC121124"; "CISC124"]; ["CISC124"; "CISC121124"]])
    [["CISC 121"; "CISC 124"]; ["CISC 124"; "CISC 121"]].
Proof.
  repeat match goal with
         | |- _ ∧ _ => split
         | |- Forall _ _ => constructor
         end; vm_compute; reflexivity.
Qed.

(** C8 at failing inputs: a raw code of letters only ("ANAT"), one of three
    digits that the derivation pass did not confirm ("999") and one that is
    neither ("12-") each end the call in TypeError, for [matches] is None
    when its length is taken; nothing is mapped to none, also for a raw code
    that comes with mappable ones. *)
Theorem unmappable_code_raises :
  Rmp.clean_and_map_course_codes ["ANAT"] ["ANAT 100"] = Raise TypeError
  ∧ Rmp.clean_and_map_course_codes ["999"] ["ANAT 100"] = Raise TypeError
  ∧ Rmp.clean_and_map_course_codes ["12-"] ["ANAT 100"] = Raise TypeError
  ∧ Rmp.clean_and_map_course_codes ["ANAT100"; "ANAT"] ["ANAT 100"]
    = Raise TypeError.
Proof.
  repeat match goal with |- _ ∧ _ => split end; vm_compute; reflexivity.
Qed.

(** ** Which professors are scraped again *)

Section ToScrape.
Import Rmp.

Lemma previous_professors_dict_lookup (previous : list previous_professor)
    (name : string) :
  previous_professors_dict previous !! name
  = (λ row, (prev_num_ratings row, prev_latest_comment_date row))
      <$> stored_professor previous name.
Proof.
  unfold previous_professors_dict, stored_professor.
  induction previous as [|row previous IH] using rev_ind.
  - simpl. by destruct (decide (name = "general_prof")).
  - rewrite foldl_app. simpl. rewrite last_such_snoc.
    destruct (String.eqb_spec (prev_name row) "general_prof") as [Hg|Hg].
    + rewrite IH. destruct (decide (name = "general_prof")); [done|].
      destruct (decide (prev_name row = name)); [congruence|done].
    + destruct (decide (prev_name row = name)) as [<-|Hne].
      * rewrite lookup_insert_eq. by rewrite decide_False.
      * by rewrite lookup_insert_ne.
Qed.

Lemma to_scrape_professor_join (previous : list previous_professor)
    (profs : list professor) :
  to_scrape_professor previous profs
  = mjoin (to_scrape_one (previous_professors_dict previous) <$> profs).
Proof.
  unfold to_scrape_professor.
  generalize (previous_professors_dict previous) as d. intros d.
  rewrite <- (app_nil_l (mjoin _)).
  generalize (@nil prof_to_scrape) as acc.
  induction profs as [|p profs IH]; intros acc; simpl.
  - by rewrite app_nil_r.
  - by rewrite IH, app_assoc.
Qed.

Lemma to_scrape_one_spec (previous : list previous_professor)
    (p : professor) (x : prof_to_scrape) :
  x ∈ to_scrape_one (previous_professors_dict previous) p
  ↔ prof x = p ∧ selected previous p (latest_comment_date x).
Proof.
  unfold to_scrape_one, selected.
  rewrite previous_professors_dict_lookup.
  destruct (stored_professor previous (p_name p)) as [row|]; simpl.
  - case_bool_decide as Hne.
    + rewrite list_elem_of_singleton. split.
      * intros ->. simpl. split; [done|]. split; [congruence|done].
      * destruct x as [q w]. simpl. by intros [-> [_ ->]].
    + split; [by intros ?%not_elem_of_nil|].
      intros [_ [Hdiff _]]. destruct Hne. congruence.
  - rewrite list_elem_of_singleton. split.
    + by intros ->.
    + destruct x as [q w]. simpl. by intros [-> ->].
Qed.
End ToScrape.

(** C5: to_scrape_professor selects a scraped professor exactly when the
    prior snapshot has no row for the name, and then with a null watermark, or
    when the num_ratings of the row stored for the name differs from the one
    observed, and then with the stored watermark; the selected professors
    come in the order scraped.  With 10 ratings stored, a professor observed
    with 10 ratings is left out, one observed with 12 is selected with the
    stored watermark, and one absent from the snapshot is selected with a
    null watermark. *)
Theorem to_scrape_professor_spec (previous : list Rmp.previous_professor)
    (profs : list Rmp.professor) :
  (∀ x : Rmp.prof_to_scrape,
     x ∈ Rmp.to_scrape_professor previous profs
     ↔ Rmp.prof x ∈ profs
       ∧ selected previous (Rmp.prof x) (Rmp.latest_comment_date x))
  ∧ Rmp.prof <$> Rmp.to_scrape_professor previous profs `sublist_of` profs
  ∧ (let stored :=
       [{| Rmp.prev_name := "John Smith"; Rmp.prev_num_ratings := Some 10%Z;
           Rmp.prev_latest_comment_date := Some "2023-12-12" |}] in
     Rmp.to_scrape_professor stored [Examples.professor "John Smith" "1001" 10]
     = []
     ∧ Rmp.to_scrape_professor stored
         [Examples.professor "John Smith" "1001" 12]
       = [{| Rmp.prof := Examples.professor "John Smith" "1001" 12;
             Rmp.latest_comment_date := Some "2023-12-12" |}]
     ∧ Rmp.to_scrape_professor stored [Examples.professor "Jane Doe" "1002" 3]
       = [{| Rmp.prof := Examples.professor "Jane Doe" "1002" 3;
             Rmp.latest_comment_date := None |}]).
Proof.
  split; [|split].
  - intros x. rewrite to_scrape_professor_join.
    rewrite list_elem_of_join. split.
    + intros [l [Hx Hl]]. apply list_elem_of_fmap in Hl as [p [-> Hp]].
      apply to_scrape_one_spec in Hx as [<- Hsel]. done.
    + intros [Hp Hsel].
      exists (Rmp.to_scrape_one (Rmp.previous_professors_dict previous)
                (Rmp.prof x)).
      split.
      * by apply to_scrape_one_spec.
      * apply list_elem_of_fmap. by exists (Rmp.prof x).
  - rewrite to_scrape_professor_join.
    generalize (Rmp.previous_professors_dict previous) as d. intros d.
    induction profs as [|p profs IH]; simpl; [done|].
    rewrite fmap_app. unfold Rmp.to_scrape_one at 1.
    destruct (d !! Rmp.p_name p) as [[stored date]|]; simpl.
    + case_bool_decide; simpl.
      * by apply sublist_skip.
      * by apply sublist_cons.
    + by apply sublist_skip.
  - vm_compute. by repeat split.
Qed.

(** ** One professor per name *)

Section ByName.
Import Rmp.

Lemma dict_set_keys {V} (k : string) (v : V) (d : list (string * V)) :
  (dict_set k v d).*1 = if bool_decide (k ∈ d.*1) then d.*1 else d.*1 ++ [k].
Proof.
  induction d as [|[k' v'] d IH]; csimpl; [done|].
  destruct (String.eqb_spec k' k) as [->|Hne]; csimpl.
  - rewrite bool_decide_eq_true_2; [done|left].
  - rewrite IH. destruct (bool_decide (k ∈ d.*1)) eqn:Hk.
    + apply bool_decide_eq_true in Hk.
      rewrite bool_decide_eq_true_2; [done|by right].
    + apply bool_decide_eq_false in Hk.
      rewrite bool_decide_eq_false_2; [done|].
      intros [Heq|Hin]%elem_of_cons; congruence.
Qed.

Lemma dict_set_NoDup {V} (k : string) (v : V) (d : list (string * V)) :
  NoDup d.*1 → NoDup (dict_set k v d).*1.
Proof.
  intros Hd. rewrite dict_set_keys. case_bool_decide as Hk; [done|].
  apply NoDup_app. split; [done|]. split.
  - intros x Hx Heq%list_elem_of_singleton. by subst x.
  - apply NoDup_singleton.
Qed.

Lemma dict_set_elem_of {V} (k : string) (v : V) (d : list (string * V))
    (k' : string) (v' : V) :
  NoDup d.*1 →
  (k', v') ∈ dict_set k v d ↔ (k' = k ∧ v' = v) ∨ (k' ≠ k ∧ (k', v') ∈ d).
Proof.
  induction d as [|[k0 v0] d IH]; csimpl; intros Hd.
  - rewrite list_elem_of_singleton. split.
    + intros [= -> ->]. by left.
    + intros [[-> ->]|[_ Hin]]; [done|by apply not_elem_of_nil in Hin].
  - apply NoDup_cons in Hd as [Hk0 Hd].
    destruct (String.eqb_spec k0 k) as [->|Hne].
    + rewrite !elem_of_cons. split.
      * intros [[= -> ->]|Hin]; [by left|].
        right. split; [|by right].
        intros ->. apply Hk0, list_elem_of_fmap. by exists (k, v').
      * intros [[-> ->]|[Hne [[= -> ->]|Hin]]]; [by left|done|by right].
    + rewrite !elem_of_cons, (IH Hd). split.
      * intros [[= -> ->]|[[-> ->]|[Hne' Hin]]].
        -- right. split; [done|by left].
        -- by left.
        -- right. split; [done|by right].
      * intros [[-> ->]|[Hne' [[= -> ->]|Hin]]].
        -- right. by left.
        -- by left.
        -- right. right. done.
Qed.

Lemma dict_by_name_spec (profs : list professor) :
  NoDup (dict_by_name profs).*1
  ∧ ∀ k v, (k, v) ∈ dict_by_name profs
           ↔ last_such (λ q, p_name q = k) profs = Some v.
Proof.
  unfold dict_by_name.
  induction profs as [|x profs [IHnd IH]] using rev_ind.
  - split; [apply NoDup_nil_2|]. intros k v. simpl. split.
    + by intros ?%not_elem_of_nil.
    + done.
  - rewrite foldl_app. simpl. split.
    + by apply dict_set_NoDup.
    + intros k v. rewrite (dict_set_elem_of _ _ _ _ _ IHnd), last_such_snoc.
      destruct (decide (p_name x = k)) as [Hk|Hk].
      * split.
        -- intros [[-> ->]|[Hne _]]; [done|congruence].
        -- intros [= ->]. by left.
      * rewrite <- IH. split.
        -- intros [[-> _]|[_ Hin]]; [done|done].
        -- intros Hin. right. split; [congruence|done].
Qed.

Lemma values_by_name_spec (profs : list professor) :
  NoDup (p_name <$> values_by_name profs)
  ∧ ∀ p, p ∈ values_by_name profs
         ↔ last_such (λ q, p_name q = p_name p) profs = Some p.
Proof.
  destruct (dict_by_name_spec profs) as [Hnd Hspec].
  unfold values_by_name. fold (dict_by_name profs). split.
  - assert (p_name <$> (dict_by_name profs).*2 = (dict_by_name profs).*1)
      as ->; [|done].
    assert (Forall (λ kv, p_name kv.2 = kv.1) (dict_by_name profs)) as Hall.
    { apply Forall_forall. intros [k v] Hin. simpl.
      apply Hspec in Hin. by apply last_such_holds in Hin as [_ ?]. }
    clear Hnd Hspec.
    induction Hall as [|[k v] d Hkv _ IH]; csimpl; [done|].
    simpl in Hkv. by rewrite Hkv, IH.
  - intros p. rewrite list_elem_of_fmap. split.
    + intros [[k v] [-> Hin]]. simpl. apply Hspec in Hin.
      by rewrite (proj2 (last_such_holds _ _ _ Hin)).
    + intros Hlast. exists (p_name p, p). split; [done|]. by apply Hspec.
Qed.

Section Collected.
Context {L : Libraries}.

Lemma add_card_ids_seen (st : collect_state) (c : card) :
  ids_seen st → ids_seen (add_card st c).
Proof.
  intros [Hnd Hseen]. unfold add_card.
  destruct (extract_card c) as [p|e]; [|done].
  case_bool_decide as Hid; [done|]. split; simpl.
  - rewrite fmap_app. apply NoDup_app. split; [done|]. split.
    + intros i Hi Heq%list_elem_of_singleton. subst i.
      apply list_elem_of_fmap in Hi as [q [Hq Hin]].
      apply Hid. rewrite Hq. by apply Hseen.
    + apply NoDup_singleton.
  - intros q [Hq|Hq%list_elem_of_singleton]%elem_of_app.
    + apply elem_of_union_r. by apply Hseen.
    + subst q. by apply elem_of_union_l, elem_of_singleton.
Qed.

Lemma add_cards_ids_seen (cards : list card) (st : collect_state) :
  ids_seen st → ids_seen (foldl add_card st cards).
Proof.
  revert st. induction cards as [|c cards IH]; intros st Hst; [done|].
  simpl. by apply IH, add_card_ids_seen.
Qed.

Lemma collect_NoDup_ids (testing : bool)
    (views : list (list card * show_more)) (st : collect_state) :
  ids_seen st → NoDup (p_id <$> collect testing views st).
Proof.
  revert st. induction views as [|[cards button] views IH]; intros st Hst.
  - by destruct Hst.
  - simpl.
    pose proof (add_cards_ids_seen
                  (List.skipn (previous_count st) cards) st Hst) as [Hnd Hs].
    destruct button; try done.
    destruct (testing && _); [done|]. by apply IH.
Qed.
End Collected.
End ByName.

(** C10: the professors collected from the cards have distinct ids, and the
    collection returned by scrape_professors holds at most one record per
    name: a record is returned exactly when it is the last one collected
    with its name.  Two cards with the same name and distinct ids and URLs
    leave the second one only. *)
Theorem scrape_professors_one_per_name (L : Libraries) (testing : bool)
    (views : list (list Rmp.card * Rmp.show_more)) :
  let collected := Rmp.collect testing views no_professor in
  let returned := Rmp.scrape_professors testing views in
  NoDup (Rmp.p_id <$> collected)
  ∧ NoDup (Rmp.p_name <$> returned)
  ∧ (∀ p, p ∈ returned
          ↔ last_such (λ q, Rmp.p_name q = Rmp.p_name p) collected = Some p)
  ∧ (let card href :=
       {| Rmp.card_name := Some "John Smith";
          Rmp.card_department := Some "Computer Science";
          Rmp.card_school := Some "Queen's University at Kingston";
          Rmp.card_rating := Some "4.5";
          Rmp.card_num_ratings := Some "12 ratings";
          Rmp.card_href := Some href |} in
     Rmp.p_url <$> Rmp.scrape_professors (L := Examples.libraries) false
                     [([card "/professor/1001"; card "/professor/2002/"],
                       Rmp.NoButton)]
     = ["https://www.ratemyprofessors.com/professor/2002/"]).
Proof.
  intros collected returned.
  destruct (values_by_name_spec collected) as [Hnd Hspec].
  split; [|split; [|split]].
  - apply collect_NoDup_ids. split; [apply NoDup_nil_2|].
    by intros p ?%not_elem_of_nil.
  - exact Hnd.
  - exact Hspec.
  - vm_compute. reflexivity.
Qed.

(** ** The review loop *)

Section ReviewLoop.
Import Rmp.
Context {L : Libraries}.
Variable env : review_env.

Lemma parse_block_spec (st st' : loop_state) (block : review_block)
    (brk : bool) :
  parse_block env st block = Ok (st', brk) →
  (brk = true ∧ st' = stopped st
   ∧ ∃ date, date_of block = Ok date ∧ not_newer env date = true)
  ∨ (brk = false ∧ stop_scraping st' = stop_scraping st
     ∧ (∃ date, date_of block = Ok date ∧ not_newer env date = false)
     ∧ (reviews st' = reviews st
        ∨ ∃ r, reviews st' = reviews st ++ [r] ∧ appended_ok env r)).
Proof.
  unfold parse_block. intros H.
  destruct (date_of block) as [date|e] eqn:Hdate; simpl in H; [|done].
  destruct (not_newer env date) eqn:Hnewer.
  - left. injection H as <- <-. eauto.
  - right.
    destruct (class_header block) as [hdr|]; simpl in H; [|done].
    destruct (course_code_mappings env !! PyStr.strip hdr) as [codes|];
      simpl in H; [|done].
    destruct (rating_or (quality_elem block) (overall_rating env))
      as [quality|]; simpl in H; [|done].
    destruct (rating_or (difficulty_elem block) (level_of_difficulty env))
      as [difficulty|]; simpl in H; [|done].
    destruct (comments_div block) as [comment|]; simpl in H; [|done].
    destruct (is_valid_comment (PyStr.strip comment)); simpl in H;
      [|injection H as <- <-; eauto 10].
    destruct (detect_sentiment (PyStr.strip comment)) as [score label].
    destruct (bool_decide _ || bool_decide _); injection H as <- <-.
    + eauto 10.
    + simpl. split; [done|]. split; [done|]. split; [eauto|].
      right. eexists. split; [done|]. by split.
Qed.

Lemma for_blocks_appends (items : list review_block) (st : loop_state) :
  ∃ new, reviews (for_blocks env st items) = reviews st ++ new
         ∧ Forall (appended_ok env) new.
Proof.
  revert st. induction items as [|block items IH]; intros st; simpl.
  - exists []. by rewrite app_nil_r.
  - destruct (rating_div block); [|apply IH].
    destruct (parse_block env st block) as [[st' brk]|e] eqn:Hparse;
      [|apply IH].
    apply parse_block_spec in Hparse
      as [(-> & -> & _)|(-> & _ & _ & [Hsame|(r & Hr & Hok)])].
    + exists []. by rewrite app_nil_r.
    + rewrite <- Hsame. apply IH.
    + destruct (IH st') as (new & Hnew & Hall).
      exists (r :: new). rewrite Hnew, Hr, <- app_assoc.
      by split; [|constructor].
Qed.

Lemma while_reviews_appends (clicks : nat) (items : list review_block)
    (st : loop_state) :
  ∃ new, reviews (while_reviews env clicks items st) = reviews st ++ new
         ∧ Forall (appended_ok env) new.
Proof.
  revert st. induction clicks as [|clicks IH]; intros st; simpl.
  - destruct (stop_scraping _); apply for_blocks_appends.
  - destruct (stop_scraping _); [apply for_blocks_appends|].
    destruct (for_blocks_appends items st) as (new1 & Hnew1 & Hall1).
    destruct (IH (for_blocks env st items)) as (new2 & Hnew2 & Hall2).
    exists (new1 ++ new2). rewrite Hnew2, Hnew1, <- app_assoc.
    split; [done|]. by apply Forall_app.
Qed.

Lemma for_blocks_at_watermark (block : review_block)
    (rest : list review_block) (st : loop_state) :
  at_watermark env block = true →
  for_blocks env st (block :: rest) = stopped st.
Proof.
  unfold at_watermark. intros [Hdiv Hdate]%andb_true_iff. simpl.
  rewrite Hdiv. unfold parse_block.
  destruct (date_of block) as [date|]; [|done]. simpl.
  by rewrite Hdate.
Qed.

Lemma for_blocks_before_watermark (pre rest : list review_block)
    (st : loop_state) :
  Forall (λ block, at_watermark env block = false) pre →
  for_blocks env st (pre ++ rest) = for_blocks env (for_blocks env st pre) rest.
Proof.
  intros Hpre. revert st.
  induction Hpre as [|block pre Hblock _ IH]; intros st; [done|]. simpl.
  unfold at_watermark in Hblock.
  destruct (rating_div block); [|apply IH].
  destruct (parse_block env st block) as [[st' brk]|e] eqn:Hparse; [|apply IH].
  apply parse_block_spec in Hparse
    as [(-> & -> & date & Hdate & Hnewer)|(-> & _)].
  - rewrite Hdate, Hnewer in Hblock. done.
  - apply IH.
Qed.

Lemma while_reviews_stops (clicks : nat) (pre post : list review_block)
    (block : review_block) (st : loop_state) :
  Forall (λ b, at_watermark env b = false) pre →
  at_watermark env block = true →
  while_reviews env clicks (pre ++ block :: post) st
  = stopped (for_blocks env st pre).
Proof.
  intros Hpre Hblock.
  assert (for_blocks env st (pre ++ block :: post)
          = stopped (for_blocks env st pre)) as Hfor.
  { by rewrite for_blocks_before_watermark, for_blocks_at_watermark. }
  destruct clicks; simpl; by rewrite Hfor.
Qed.
End ReviewLoop.

(* Every chunk that scrape_professor_comments inserts is newer than the
   professor's watermark, and its course_code is the last line of the course
   menu, whatever the header of the review is. *)
Lemma inserted_chunks_spec (L : Libraries) (p : Rmp.prof_to_scrape)
    (valid_courses : list string) (page : Rmp.prof_page)
    (existing : list (string * string)) (clicks : nat)
    (updated : Rmp.updated_prof) (chunks : list Rmp.chunk) :
  Rmp.scrape_professor_comments p valid_courses page existing clicks
  = Ok (updated, Some chunks) →
  Forall (λ c,
            match Rmp.latest_comment_date p with
            | Some watermark => String.leb (Rmp.created_at c) watermark = false
            | None => True
            end
            ∧ Rmp.course_code c
              = default "" (last (PyStr.split "010" (Rmp.menu_text page))))
         chunks.
Proof.
  unfold Rmp.scrape_professor_comments, Rmp.collect_reviews.
  destruct (Rmp.clean_and_map_course_codes _ valid_courses) as [mapping|e];
    simpl; [|done].
  match goal with
  | |- context [Rmp.while_reviews ?env _ _ _] =>
      assert (∃ new,
                Rmp.reviews
                  (if (0 <? Rmp.p_num_ratings (Rmp.prof p))%Z
                   then Rmp.while_reviews env clicks
                          (default [] (Rmp.ratings_list page)) no_review
                   else no_review)
                = [] ++ new
                ∧ Forall (appended_ok env) new) as (new & Hnew & Hall)
  end.
  { destruct (0 <? _)%Z.
    - apply while_reviews_appends.
    - exists []. by split. }
  unfold no_review in Hnew. rewrite Hnew. simpl.
  destruct new as [|r new]; [done|]. intros [= _ <-].
  change (Rmp.chunk_of p r :: list_fmap _ _ (Rmp.chunk_of p) new)
    with (Rmp.chunk_of p <$> r :: new).
  apply Forall_fmap. eapply Forall_impl; [exact Hall|].
  intros r' [Hdate Hcourse]. split; [|exact Hcourse].
  unfold Rmp.not_newer in Hdate. simpl in *.
  by destruct (Rmp.latest_comment_date p).
Qed.

(** C6: for a professor whose watermark is set, the review loop appends
    only reviews whose date is newer than the watermark (the date is not
    less than or equal to it); when the loop comes to the first review block
    whose date is not newer than the watermark, the collection ends there,
    with the reviews collected from the blocks before it and whatever the
    "Load More Ratings" button offers; the chunks that
    scrape_professor_comments inserts are all newer than the watermark. *)
Theorem watermark_bounds_collection (L : Libraries) (p : Rmp.prof_to_scrape)
    (watermark : string) :
  Rmp.latest_comment_date p = Some watermark →
  (∀ env clicks review_items st,
     Rmp.env_prof env = p →
     ∃ new,
       Rmp.reviews (Rmp.while_reviews env clicks review_items st)
       = Rmp.reviews st ++ new
       ∧ Forall (λ r, String.leb (Rmp.r_date r) watermark = false) new)
  ∧ (∀ env clicks pre block post st,
       Rmp.env_prof env = p →
       Forall (λ b, at_watermark env b = false) pre →
       at_watermark env block = true →
       Rmp.while_reviews env clicks (pre ++ block :: post) st
       = stopped (Rmp.for_blocks env st pre))
  ∧ (∀ valid_courses page existing clicks updated chunks,
       Rmp.scrape_professor_comments p valid_courses page existing clicks
       = Ok (updated, Some chunks) →
       Forall (λ c, String.leb (Rmp.created_at c) watermark = false) chunks).
Proof.
  intros Hw. split; [|split].
  - intros env clicks review_items st Henv.
    destruct (while_reviews_appends env clicks review_items st)
      as (new & Hnew & Hall).
    exists new. split; [done|].
    eapply Forall_impl; [exact Hall|].
    intros r [Hr _]. unfold Rmp.not_newer in Hr. by rewrite Henv, Hw in Hr.
  - intros env clicks pre block post st _. apply while_reviews_stops.
  - intros valid_courses page existing clicks updated chunks Hrun.
    eapply Forall_impl; [exact (inserted_chunks_spec _ _ _ _ _ _ _ _ Hrun)|].
    intros c [Hc _]. by rewrite Hw in Hc.
Qed.

(** Witness of C6: the professor's watermark is 2023-12-12 and the page
    shows reviews dated 2024-01-05, 2023-12-12 and 2023-11-03; the loop is
    left at the second one. *)
Lemma watermark_bounds_collection_witness :
  let p := Examples.smith (Some "2023-12-12") in
  let env := example_env (Some "2023-12-12") in
  Rmp.latest_comment_date p = Some "2023-12-12"
  ∧ Rmp.env_prof env = p
  ∧ Forall (λ b, at_watermark (L := Examples.libraries) env b = false)
      [Examples.review_jan]
  ∧ at_watermark (L := Examples.libraries) env Examples.review_dec = true
  ∧ Rmp.while_reviews (L := Examples.libraries) env 2
      ([Examples.review_jan] ++ Examples.review_dec :: [Examples.review_nov])
      no_review
    = stopped
        (Rmp.for_blocks (L := Examples.libraries) env no_review
           [Examples.review_jan])
  ∧ Rmp.r_date
    <$> Rmp.reviews
          (Rmp.while_reviews (L := Examples.libraries) env 2
             [Examples.review_jan; Examples.review_dec; Examples.review_nov]
             no_review)
    = ["2024-01-05"].
Proof.
  intros p env.
  destruct (watermark_bounds_collection Examples.libraries p "2023-12-12"
              eq_refl) as (_ & Hstop & _).
  assert (Forall (λ b, at_watermark (L := Examples.libraries) env b = false)
            [Examples.review_jan]) as Hpre.
  { constructor; [vm_compute; reflexivity|constructor]. }
  assert (at_watermark (L := Examples.libraries) env Examples.review_dec = true)
    as Hblock by (vm_compute; reflexivity).
  split; [reflexivity|]. split; [reflexivity|].
  split; [exact Hpre|]. split; [exact Hblock|]. split.
  - exact (Hstop env 2 [Examples.review_jan] Examples.review_dec
             [Examples.review_nov] no_review eq_refl Hpre Hblock).
  - vm_compute. reflexivity.
Defined.

(** C1 at a failing input: the course menu reads "All courses",
    "CISC121 (1)", "CISC124 (2)" and the one review is headed "CISC121",
    which the reconciler maps to ["CISC 121"]; the chunk inserted has the
    course_code "CISC124 (2)", the last line of the menu, which is neither
    "CISC 121" nor "general_course". *)
Theorem review_chunk_carries_last_menu_line :
  (λ m : gmap string (option (list string)), m !! "CISC121")
    <$> Rmp.clean_and_map_course_codes
          (Rmp.all_courses_of
             (PyStr.split "010"
                (Rmp.menu_text (Examples.page [Examples.review_jan]))))
          Examples.valid_courses
  = Ok (Some (Some ["CISC 121"]))
  ∧ (λ out : Rmp.updated_prof * option (list Rmp.chunk),
       fmap (M := list) Rmp.course_code <$> out.2)
      <$> Rmp.scrape_professor_comments (L := Examples.libraries)
            (Examples.smith None) Examples.valid_courses
            (Examples.page [Examples.review_jan]) [] 0
    = Ok (Some ["CISC124 (2)"]).
Proof. split; vm_compute; reflexivity. Qed.

(** ** The Reddit pipeline *)

(* A comment for which neither the post nor the comment itself gives a
   course code leaves [results] and [prof_name] as they are, whether it names
   a professor or not: the loop goes on to the next comment before the
   general_course branch is reached. *)
Lemma comment_step_without_code (L : Libraries)
    (courses professors : gset string) (p : Reddit.post)
    (post_course_code : option string)
    (st : option string * list Reddit.comment_data) (c : Reddit.comment) :
  PyStr.truthy post_course_code = false →
  PyStr.truthy (Reddit.extract_course_code_from_comment c) = false →
  Reddit.comment_step courses professors p post_course_code st c = st.
Proof.
  intros Hpost Hcomment. unfold Reddit.comment_step.
  destruct st as [name results].
  destruct (Reddit.is_comment_of_interest c); [|done]. simpl.
  by rewrite Hpost, Hcomment.
Qed.

(** C7 at a failing input: a post of interest that names no course, with a
    comment of interest that names no course either and names
    "Dr. John Smith": nothing is stored, no chunk with the course_code
    "general_course". *)
Theorem comment_without_course_code_is_dropped :
  Reddit.is_post_of_interest Examples.post_without_code = true
  ∧ Reddit.is_comment_of_interest Examples.comment_on_smith = true
  ∧ Reddit.extract_course_code_from_post Examples.post_without_code = None
  ∧ Reddit.extract_course_code_from_comment Examples.comment_on_smith = None
  ∧ Reddit.extract_prof_name_from_comment Examples.comment_on_smith
    = Some "Dr. John Smith"
  ∧ Reddit.scrape_and_store (L := Examples.libraries)
      (list_to_set Examples.valid_courses) {[ "Dr. John Smith" ]} []
      [Examples.post_without_code]
    = [].
Proof.
  repeat match goal with |- _ ∧ _ => split end; vm_compute; reflexivity.
Qed.

(** C9, as stated, fails: the tags of the comment do not include
    "professor_review". *)
Lemma end_to_end_without_professor_review :
  ¬ ("professor_review" ∈ Reddit.detect_tags Examples.end_to_end
     ∧ ("easy" ∉ Reddit.detect_tags Examples.end_to_end)
     ∧ Reddit.extract_course_code Examples.end_to_end = Some "CISC 124"
     ∧ Reddit.extract_prof_name Examples.end_to_end = Some "Dr. John Smith").
Proof.
  intros [Htag _]. revert Htag.
  assert (Reddit.detect_tags Examples.end_to_end = []) as ->
    by (vm_compute; reflexivity).
  apply not_elem_of_nil.
Qed.

(** C9, amended: for the comment "This course (CISC 124) was NOT easy but
    the prof, Dr. John Smith, was great", detect_tags returns no tag: not
    "easy", which the negation pre-check suppresses although the keyword
    "easy" is in the text, and not "professor_review", for the text has
    none of the keywords of that tag ("prof" is not one of them); the
    course-code extractors return "CISC 124" and the professor-name
    extractors return "Dr. John Smith", for the text as a comment and as
    the text of a post. *)
Theorem end_to_end_extraction :
  let text := Examples.end_to_end in
  Reddit.detect_tags text = []
  ∧ Re.search Reddit.not_easy_re (PyStr.lower text) = Some "not easy"
  ∧ Reddit.any_in (PyStr.lower text) Reddit.easy_words = true
  ∧ Reddit.any_in (PyStr.lower text) Reddit.professor_words = false
  ∧ (∀ score created,
       let c := {| Reddit.body := text; Reddit.c_score := score;
                   Reddit.created_utc := created |} in
       Reddit.extract_course_code_from_comment c = Some "CISC 124"
       ∧ Reddit.extract_prof_name_from_comment c = Some "Dr. John Smith")
  ∧ Forall (λ p,
       Reddit.extract_course_code_from_post p = Some "CISC 124"
       ∧ Reddit.extract_prof_name_from_post p = Some "Dr. John Smith")
      [ {| Reddit.url := ""; Reddit.title := text; Reddit.selftext := "";
           Reddit.is_self := true; Reddit.over_18 := false;
           Reddit.locked := false; Reddit.score := 2;
           Reddit.num_comments := 0; Reddit.comments := [] |};
        {| Reddit.url := ""; Reddit.title := ""; Reddit.selftext := text;
           Reddit.is_self := true; Reddit.over_18 := false;
           Reddit.locked := false; Reddit.score := 2;
           Reddit.num_comments := 0; Reddit.comments := [] |} ].
Proof.
  intros text.
  repeat match goal with
         | |- _ ∧ _ => split
         | |- Forall _ _ => constructor
         | |- ∀ _, _ => intros ?
         | |- let _ := _ in _ => intros ?
         end; vm_compute; reflexivity.
Qed.

(** * Further properties *)

(** ** The reconciler's result *)

Section ReconcilerResult.
Import PyStr Re Rmp.

Lemma map_one_ok (valid_courses : list string) (st : derived)
    (raw_code : string) (v : option (list string)) :
  map_one valid_courses st raw_code = Ok v →
  matches_of valid_courses st raw_code ≠ None
  ∧ v = mapped_value valid_courses st raw_code.
Proof.
  unfold map_one, mapped_value.
  destruct (matches_of valid_courses st raw_code) as [[|c [|c' ms]]|];
    simpl; intros [= <-] || intros [=]; by split.
Qed.

(* The mapping loop, when it ends without an exception. *)
Lemma map_loop_ok (valid_courses : list string) (st : derived)
    (codes : list string) (m0 m : gmap string (option (list string))) :
  foldl (map_step valid_courses st) (Ok m0) codes = Ok m →
  Forall (λ raw, matches_of valid_courses st raw ≠ None) codes
  ∧ ∀ raw, m !! raw = if decide (raw ∈ codes)
                     then Some (mapped_value valid_courses st raw)
                     else m0 !! raw.
Proof.
  revert m0. induction codes as [|raw0 codes IH]; intros m0.
  - intros [= ->]. split; [constructor|]. intros raw.
    by rewrite decide_False by apply not_elem_of_nil.
  - cbn [foldl].
    destruct (map_one valid_courses st raw0) as [v|e] eqn:Hone.
    + assert (map_step valid_courses st (Ok m0) raw0 = Ok (<[raw0 := v]> m0))
        as -> by (unfold map_step; simpl; by rewrite Hone).
      intros Hloop. apply map_one_ok in Hone as [Hsome ->].
      apply IH in Hloop as [Hall Hm]. split; [by constructor|].
      intros raw. rewrite Hm.
      destruct (decide (raw ∈ codes)) as [Hin|Hin].
      * rewrite decide_True by (by right). done.
      * destruct (decide (raw = raw0)) as [->|Hne].
        -- rewrite decide_True by left. by rewrite lookup_insert_eq.
        -- rewrite decide_False by (intros [?|?]%elem_of_cons; done).
           by rewrite lookup_insert_ne.
    + assert (map_step valid_courses st (Ok m0) raw0 = Raise e)
        as -> by (unfold map_step; simpl; by rewrite Hone).
      by rewrite mapping_loop_raised.
Qed.

Lemma derive_num_canonical (valid_courses : list string) (num : string)
    (depts : list string) (st : derived) :
  derived_canonical valid_courses st →
  derived_canonical valid_courses
    (foldl (derive_num valid_courses num) st depts).
Proof.
  revert st. induction depts as [|dept depts IH]; intros st Hst; [done|].
  simpl. apply IH. unfold derive_num. case_bool_decide as Hin; [|done].
  intros c. simpl. rewrite elem_of_union, elem_of_singleton.
  intros [->|Hc]; [done|by apply Hst].
Qed.

Lemma derive_step_canonical (valid_courses : list string) (st : derived)
    (raw_code : string) :
  derived_canonical valid_courses st →
  derived_canonical valid_courses (derive_step valid_courses st raw_code).
Proof.
  intros Hst. unfold derive_step.
  match goal with
  | |- derived_canonical _ (foldl _ ?st1 ?nums) =>
      assert (derived_canonical valid_courses st1) as Hst1;
      [|generalize dependent st1; generalize nums]
  end.
  { destruct (rmatch prefix_re _); [|done].
    destruct (existsb _ _).
    - intros c Hc. by apply Hst.
    - done. }
  intros nums. induction nums as [|num nums IH]; intros st1 Hst1; [done|].
  cbn [foldl]. apply IH. destruct (3 <=? String.length num); [|done].
  by apply derive_num_canonical.
Qed.

Lemma derive_canonical (course_codes valid_courses : list string) :
  derived_canonical valid_courses (derive course_codes valid_courses).
Proof.
  unfold derive.
  assert (derived_canonical valid_courses derived_empty) as Hst.
  { intros c Hc. by apply not_elem_of_empty in Hc. }
  revert Hst. generalize derived_empty as st.
  induction course_codes as [|raw codes IH]; intros st Hst; [done|].
  simpl. by apply IH, derive_step_canonical.
Qed.

Lemma append_hits_canonical (valid_courses : list string) (st : derived)
    (num : string) (matches : list string) :
  derived_canonical valid_courses st →
  Forall (λ c, c ∈ valid_courses) matches →
  Forall (λ c, c ∈ valid_courses) (append_hits st num matches).
Proof.
  intros Hst. unfold append_hits.
  generalize (valid_dept_codes st) as depts. intros depts. revert matches.
  induction depts as [|dept depts IH]; intros matches Hms; [done|].
  simpl. apply IH. case_bool_decide as Hin; [|done].
  apply Forall_app. split; [done|]. constructor; [by apply Hst|constructor].
Qed.

Lemma chunk_loop_canonical (valid_courses : list string) (st : derived)
    (fuel idx : nat) (suffix : string) (matches : list string) :
  derived_canonical valid_courses st →
  Forall (λ c, c ∈ valid_courses) matches →
  Forall (λ c, c ∈ valid_courses) (chunk_loop fuel idx st suffix matches).
Proof.
  intros Hst. revert idx matches.
  induction fuel as [|fuel IH]; intros idx matches Hms; [done|]. simpl.
  destruct (idx <? String.length suffix); [|done].
  by apply IH, append_hits_canonical.
Qed.

(* The dict of the canonical codes without their spaces holds canonical
   codes, each under its own key. *)
Lemma valid_courses_no_space_lookup (valid_courses : list string)
    (key course : string) :
  valid_courses_no_space valid_courses !! key = Some course →
  course ∈ valid_courses ∧ upper (remove_char " " course) = key.
Proof.
  unfold valid_courses_no_space.
  induction valid_courses as [|c valid IH] using rev_ind; [done|].
  rewrite foldl_app. simpl.
  destruct (decide (upper (remove_char " " c) = key)) as [<-|Hne].
  - rewrite lookup_insert_eq. intros [= <-]. split; [|done].
    apply elem_of_app. right. left.
  - rewrite lookup_insert_ne by done. intros [Hin Hkey]%IH.
    split; [|done]. apply elem_of_app. by left.
Qed.

Lemma valid_courses_no_space_is_Some (valid_courses : list string)
    (course : string) :
  course ∈ valid_courses →
  is_Some (valid_courses_no_space valid_courses
             !! upper (remove_char " " course)).
Proof.
  unfold valid_courses_no_space.
  induction valid_courses as [|c valid IH] using rev_ind.
  - by intros ?%not_elem_of_nil.
  - rewrite foldl_app. simpl. intros [Hin|Hin%list_elem_of_singleton]%elem_of_app.
    + destruct (decide (upper (remove_char " " c)
                        = upper (remove_char " " course))) as [->|Hne].
      * rewrite lookup_insert_eq. by eexists.
      * rewrite lookup_insert_ne by done. by apply IH.
    + subst c. rewrite lookup_insert_eq. by eexists.
Qed.

Lemma matches_of_canonical (valid_courses : list string) (st : derived)
    (raw_code : string) (matches : list string) :
  derived_canonical valid_courses st →
  matches_of valid_courses st raw_code = Some matches →
  Forall (λ c, c ∈ valid_courses) matches.
Proof.
  intros Hst. unfold matches_of.
  destruct (valid_courses_no_space valid_courses !! cleaned_of raw_code)
    as [course|] eqn:Hexact.
  - intros [= <-]. apply valid_courses_no_space_lookup in Hexact as [? _].
    by repeat constructor.
  - destruct (rmatch prefix_re (cleaned_of raw_code)) as [prefix|],
      (findall digits_re (cleaned_of raw_code)) as [|n ns].
    all: try (intros [= <-]; by apply chunk_loop_canonical).
    all: destruct (isdigit _ && _);
      [case_bool_decide; [|done]; intros [= <-];
       by apply append_hits_canonical
      |by destruct (isalpha _)].
Qed.
End ReconcilerResult.

(** X1: when clean_and_map_course_codes returns a mapping, its keys are the
    raw codes it was given, and every raw code is mapped to None or to a list
    of exactly one course code, which is one of the canonical codes: the
    reconciler never invents a course and never returns several
    candidates. *)
Theorem reconciler_maps_to_canonical (course_codes valid_courses : list string)
    (course_mapping : gmap string (option (list string))) :
  Rmp.clean_and_map_course_codes course_codes valid_courses
  = Ok course_mapping →
  (∀ raw_code, is_Some (course_mapping !! raw_code) ↔ raw_code ∈ course_codes)
  ∧ (∀ raw_code matches,
       course_mapping !! raw_code = Some (Some matches) →
       ∃ course, matches = [course] ∧ course ∈ valid_courses).
Proof.
  unfold Rmp.clean_and_map_course_codes. intros [_ Hm]%map_loop_ok. split.
  - intros raw. rewrite Hm. destruct (decide (raw ∈ course_codes)).
    + split; [done|]. by eexists.
    + rewrite lookup_empty. split; [by intros [? ?]|done].
  - intros raw matches. rewrite Hm.
    destruct (decide (raw ∈ course_codes)); [|by rewrite lookup_empty].
    unfold mapped_value.
    destruct (Rmp.matches_of _ _ raw) as [[|c [|c' ms]]|] eqn:Hms;
      intros [=]; subst matches.
    exists c. split; [done|].
    apply matches_of_canonical in Hms; [|apply derive_canonical].
    by apply Forall_cons in Hms as [? _].
Qed.

Lemma reconciler_maps_to_canonical_witness :
  let codes := ["CISC121124"; "CISC124"; "121"] in
  let valid := ["CISC 121"; "CISC 124"] in
  let m : gmap string (option (list string)) :=
    {[ "CISC121124" := None; "CISC124" := Some ["CISC 124"];
       "121" := Some ["CISC 121"] ]} in
  Rmp.clean_and_map_course_codes codes valid = Ok m
  ∧ (is_Some (m !! "121") ↔ "121" ∈ codes)
  ∧ ∃ course, ["CISC 121"] = [course] ∧ course ∈ valid.
Proof.
  intros codes valid m.
  assert (Rmp.clean_and_map_course_codes codes valid = Ok m) as Hrun
    by (vm_compute; reflexivity).
  destruct (reconciler_maps_to_canonical codes valid m Hrun) as [Hdom Hval].
  split; [exact Hrun|]. split; [apply Hdom|].
  apply (Hval "121"). vm_compute. reflexivity.
Defined.

(** X2: a raw code that is a canonical code up to spaces, surrounding
    whitespace and letter case is mapped, when the call returns, to one
    canonical code that is the same up to spaces and letter case, whatever
    the other raw codes are. *)
Theorem reconciler_exact_match (course_codes valid_courses : list string)
    (course_mapping : gmap string (option (list string)))
    (raw_code course : string) :
  Rmp.clean_and_map_course_codes course_codes valid_courses
  = Ok course_mapping →
  raw_code ∈ course_codes →
  course ∈ valid_courses →
  Rmp.cleaned_of raw_code = PyStr.upper (PyStr.remove_char " " course) →
  ∃ course',
    course_mapping !! raw_code = Some (Some [course'])
    ∧ course' ∈ valid_courses
    ∧ PyStr.upper (PyStr.remove_char " " course') = Rmp.cleaned_of raw_code.
Proof.
  unfold Rmp.clean_and_map_course_codes.
  intros [_ Hm]%map_loop_ok Hraw Hcourse Hclean.
  destruct (valid_courses_no_space_is_Some valid_courses course Hcourse)
    as [course' Hlook].
  rewrite <- Hclean in Hlook.
  exists course'. rewrite Hm, decide_True by done.
  unfold mapped_value, Rmp.matches_of. rewrite Hlook.
  by apply valid_courses_no_space_lookup in Hlook as [? ?].
Qed.

Lemma reconciler_exact_match_witness :
  let codes := [" cisc 124 "; "ANAT100"] in
  let valid := ["CISC 121"; "CISC 124"; "ANAT 100"] in
  let m : gmap string (option (list string)) :=
    {[ " cisc 124 " := Some ["CISC 124"]; "ANAT100" := Some ["ANAT 100"] ]} in
  Rmp.clean_and_map_course_codes codes valid = Ok m
  ∧ " cisc 124 " ∈ codes
  ∧ "CISC 124" ∈ valid
  ∧ Rmp.cleaned_of " cisc 124 "
    = PyStr.upper (PyStr.remove_char " " "CISC 124")
  ∧ ∃ course',
      m !! " cisc 124 " = Some (Some [course'])
      ∧ course' ∈ valid
      ∧ PyStr.upper (PyStr.remove_char " " course')
        = Rmp.cleaned_of " cisc 124 ".
Proof.
  intros codes valid m.
  assert (Rmp.clean_and_map_course_codes codes valid = Ok m) as Hrun
    by (vm_compute; reflexivity).
  assert (" cisc 124 " ∈ codes) as Hraw by left.
  assert ("CISC 124" ∈ valid) as Hcourse by (right; left).
  assert (Rmp.cleaned_of " cisc 124 "
          = PyStr.upper (PyStr.remove_char " " "CISC 124")) as Hclean
    by (vm_compute; reflexivity).
  split; [exact Hrun|]. split; [exact Hraw|]. split; [exact Hcourse|].
  split; [exact Hclean|].
  exact (reconciler_exact_match codes valid m " cisc 124 " "CISC 124"
           Hrun Hraw Hcourse Hclean).
Defined.

Section Unmappable.
Import PyStr Re Rmp.

(* \d+ finds nothing in a text without a digit. *)
Lemma search_digits_without_digit (s : string) (prev : option ascii) :
  sall (λ c, negb (is_digit c)) s = true → search_from digits_re prev s = None.
Proof.
  revert prev. induction s as [|c s IH]; intros prev Hs; [done|].
  simpl in Hs. apply andb_true_iff in Hs as [Hc%negb_true_iff Hs].
  cbn [search_from]. unfold match_here, digits_re. cbn [run].
  rewrite Hc. fold digits_re. by rewrite (IH (Some c) Hs).
Qed.

Lemma isdigit_without_digit (s : string) :
  sall (λ c, negb (is_digit c)) s = true → isdigit s = false.
Proof.
  unfold isdigit. destruct s as [|c s]; [done|]. simpl.
  intros [Hc%negb_true_iff _]%andb_true_iff. by rewrite Hc.
Qed.

Lemma is_digit_not_upper (c : ascii) : is_digit c = true → is_upper c = false.
Proof.
  unfold is_upper, is_digit, in_range.
  generalize (code c) as n. intros n [_ H%Nat.leb_le]%andb_true_iff.
  apply andb_false_iff. left. apply Nat.leb_gt. lia.
Qed.

(* ^[A-Z]+ does not match a text of digits. *)
Lemma prefix_of_digits (s : string) :
  sall is_digit s = true → rmatch prefix_re s = None.
Proof.
  unfold rmatch, match_here, prefix_re. cbn [run].
  destruct s as [|c s]; [done|]. simpl.
  intros [Hc _]%andb_true_iff. by rewrite (is_digit_not_upper c Hc).
Qed.
End Unmappable.

(** X3: a raw code that is not a canonical code up to spaces and letter
    case, and that has no digit once cleaned (a bare department abbreviation
    such as ANAT, or a text such as N/A), or that is made of digits only but
    not of three, makes clean_and_map_course_codes raise TypeError, whatever
    the other raw codes are: no mapping is returned for any of them. *)
Theorem unmappable_code_aborts_mapping (course_codes valid_courses : list string)
    (raw_code : string) :
  raw_code ∈ course_codes →
  Rmp.valid_courses_no_space valid_courses !! Rmp.cleaned_of raw_code = None →
  PyStr.sall (λ c, negb (PyStr.is_digit c)) (Rmp.cleaned_of raw_code) = true
  ∨ (PyStr.sall PyStr.is_digit (Rmp.cleaned_of raw_code) = true
     ∧ String.length (Rmp.cleaned_of raw_code) ≠ 3) →
  Rmp.clean_and_map_course_codes course_codes valid_courses = Raise TypeError.
Proof.
  intros Hin Hexact Hshape.
  apply (clean_and_map_raises _ _ raw_code Hin).
  unfold Rmp.matches_of. rewrite Hexact. cbv zeta.
  destruct Hshape as [Hnone|[Hdigits Hlen]].
  - assert (Re.findall Rmp.digits_re (Rmp.cleaned_of raw_code) = []) as ->.
    { unfold Re.findall. cbn [Re.scan].
      by rewrite (search_digits_without_digit _ None Hnone). }
    rewrite (isdigit_without_digit _ Hnone). cbn [andb].
    destruct (Re.rmatch _ _); by destruct (PyStr.isalpha _).
  - rewrite (prefix_of_digits _ Hdigits).
    apply Nat.eqb_neq in Hlen. rewrite Hlen, andb_false_r.
    by destruct (PyStr.isalpha _).
Qed.

Lemma unmappable_code_aborts_mapping_witness :
  let valid := ["CISC 121"; "CISC 124"; "ANAT 100"] in
  "N/A" ∈ ["CISC121"; "N/A"; "CISC124"]
  ∧ Rmp.valid_courses_no_space valid !! Rmp.cleaned_of "N/A" = None
  ∧ PyStr.sall (λ c, negb (PyStr.is_digit c)) (Rmp.cleaned_of "N/A") = true
  ∧ Rmp.clean_and_map_course_codes ["CISC121"; "N/A"; "CISC124"] valid
    = Raise TypeError
  ∧ Rmp.clean_and_map_course_codes ["CISC121"; "1214"] valid
    = Raise TypeError.
Proof.
  intros valid.
  assert ("N/A" ∈ ["CISC121"; "N/A"; "CISC124"]) as Hin by (right; left).
  assert (Rmp.valid_courses_no_space valid !! Rmp.cleaned_of "N/A" = None)
    as Hexact by (vm_compute; reflexivity).
  assert (PyStr.sall (λ c, negb (PyStr.is_digit c)) (Rmp.cleaned_of "N/A")
          = true) as Hnone by (vm_compute; reflexivity).
  split; [exact Hin|]. split; [exact Hexact|]. split; [exact Hnone|].
  split.
  - exact (unmappable_code_aborts_mapping _ valid "N/A" Hin Hexact
             (or_introl Hnone)).
  - apply (unmappable_code_aborts_mapping _ valid "1214").
    + right; left.
    + vm_compute. reflexivity.
    + right. split; [vm_compute; reflexivity|]. simpl. lia.
Defined.

(** ** The course menu *)

Section CourseMenu.
Import PyStr Rmp.

Lemma set_add_elem_of (x y : string) (l : list string) :
  y ∈ set_add x l ↔ y = x ∨ y ∈ l.
Proof.
  unfold set_add. case_bool_decide as Hin.
  - split; [by right|]. by intros [->|?].
  - rewrite elem_of_app, list_elem_of_singleton. tauto.
Qed.

Lemma set_add_NoDup (x : string) (l : list string) :
  NoDup l → NoDup (set_add x l).
Proof.
  intros Hl. unfold set_add. case_bool_decide as Hin; [done|].
  apply NoDup_app. split; [done|]. split.
  - intros y Hy Heq%list_elem_of_singleton. by subst y.
  - apply NoDup_singleton.
Qed.

Lemma all_courses_of_spec (raw_courses : list string) :
  NoDup (all_courses_of raw_courses)
  ∧ ∀ cleaned,
      cleaned ∈ all_courses_of raw_courses
      ↔ cleaned ≠ "" ∧ lower cleaned ≠ "all courses"
        ∧ ∃ course, course ∈ raw_courses ∧ cleaned = menu_entry course.
Proof.
  unfold all_courses_of.
  induction raw_courses as [|course raw IH] using rev_ind.
  - split; [apply NoDup_nil_2|]. intros cleaned. simpl. split.
    + by intros ?%not_elem_of_nil.
    + intros (_ & _ & c & Hc & _). by apply not_elem_of_nil in Hc.
  - destruct IH as [IHnd IH]. rewrite foldl_app. cbn [foldl].
    fold (menu_entry course).
    destruct (String.eqb_spec (menu_entry course) "") as [Hempty|Hempty];
      destruct (String.eqb_spec (lower (menu_entry course)) "all courses")
        as [Hall|Hall]; cbn [negb andb].
    4: { split; [by apply set_add_NoDup|]. intros cleaned.
         rewrite set_add_elem_of, IH. split.
         - intros [->|(? & ? & c & Hc & ->)].
           + split; [done|]. split; [done|]. exists course.
             split; [|done]. apply elem_of_app. right. left.
           + split; [done|]. split; [done|]. exists c.
             split; [|done]. apply elem_of_app. by left.
         - intros (Hne & Hnall & c & Hc & ->).
           apply elem_of_app in Hc as [Hc|Hc%list_elem_of_singleton].
           + right. eauto.
           + left. by subst c. }
    all: split; [done|]; intros cleaned; rewrite IH; split.
    all: try (intros (? & ? & c & Hc & ->); split; [done|]; split; [done|];
              exists c; split; [|done]; apply elem_of_app; by left).
    all: intros (Hne & Hnall & c & Hc & ->);
      apply elem_of_app in Hc as [Hc|Hc%list_elem_of_singleton];
      [eauto|subst c; congruence].
Qed.
End CourseMenu.

(** X4: the raw codes handed to the reconciler are the lines of the course
    menu with their "(n)" counts removed and stripped, each once: the empty
    lines and the "All courses" entry (in any letter case) are never among
    them. *)
Theorem course_menu_entries (raw_courses : list string) :
  NoDup (Rmp.all_courses_of raw_courses)
  ∧ ("" ∉ Rmp.all_courses_of raw_courses)
  ∧ (∀ cleaned,
       cleaned ∈ Rmp.all_courses_of raw_courses →
       PyStr.lower cleaned ≠ "all courses"
       ∧ ∃ course, course ∈ raw_courses ∧ cleaned = menu_entry course)
  ∧ (∀ course,
       course ∈ raw_courses →
       menu_entry course = ""
       ∨ PyStr.lower (menu_entry course) = "all courses"
       ∨ menu_entry course ∈ Rmp.all_courses_of raw_courses).
Proof.
  destruct (all_courses_of_spec raw_courses) as [Hnd Hspec].
  split; [exact Hnd|]. split; [|split].
  - intros Hin. by apply Hspec in Hin as [? _].
  - intros cleaned Hin. by apply Hspec in Hin as (_ & ? & ?).
  - intros course Hin.
    destruct (decide (menu_entry course = "")) as [|Hne]; [by left|].
    destruct (decide (PyStr.lower (menu_entry course) = "all courses"))
      as [|Hnall]; [by (right; left)|].
    right. right. apply Hspec. eauto.
Qed.

(** ** Strings *)

Section Strings.
Import PyStr.

Lemma sapp_nil_l (s : string) : "" +:+ s = s.
Proof. reflexivity. Qed.

Lemma sapp_cons (c : ascii) (s t : string) :
  String c s +:+ t = String c (s +:+ t).
Proof. reflexivity. Qed.

Lemma sapp_nil_r (s : string) : s +:+ "" = s.
Proof. induction s as [|c s IH]; [done|]. by rewrite sapp_cons, IH. Qed.

Lemma sapp_assoc (s t u : string) : (s +:+ t) +:+ u = s +:+ t +:+ u.
Proof. induction s as [|c s IH]; [done|]. by rewrite !sapp_cons, IH. Qed.




Variable p : ascii → bool.

Lemma sall_app (s t : string) : sall p (s +:+ t) = sall p s && sall p t.
Proof.
  induction s as [|c s IH]; [done|].
  rewrite sapp_cons. simpl. by rewrite IH, andb_assoc.
Qed.










Hypothesis p_space : p " " = true.





End Strings.

(** ** Runs of white space *)

Section Runs.
Import PyStr Re.
Variable p : ascii → bool.








End Runs.

(** ** normalize_comment *)

Section Normalize.
Import PyStr.











End Normalize.


(** ** The review loop, turn after turn *)

Section ReviewTurns.
Import Rmp.
Context {L : Libraries}.
Variable env : review_env.

(* What a block raises does not depend on the state of the loop. *)
Lemma parse_block_raise (st st2 : loop_state) (block : review_block)
    (e : exn) :
  parse_block env st block = Raise e → parse_block env st2 block = Raise e.
Proof.
  unfold parse_block.
  destruct (date_of block) as [date|]; simpl; [|done].
  destruct (not_newer env date); [done|].
  destruct (class_header block) as [hdr|]; simpl; [|done].
  destruct (course_code_mappings env !! PyStr.strip hdr) as [codes|];
    simpl; [|done].
  destruct (rating_or (quality_elem block) (overall_rating env))
    as [quality|]; simpl; [|done].
  destruct (rating_or (difficulty_elem block) (level_of_difficulty env))
    as [difficulty|]; simpl; [|done].
  destruct (comments_div block) as [comment|]; simpl; [|done].
  destruct (is_valid_comment (PyStr.strip comment)); simpl; [|done].
  destruct (detect_sentiment (PyStr.strip comment)) as [score label].
  by destruct (bool_decide _ || bool_decide _).
Qed.

(* A block that does not end the loop leaves the state as it is, or appends
   one review that is neither stored nor seen, and marks it as seen. *)
Lemma parse_block_outcome (st st' : loop_state) (block : review_block) :
  parse_block env st block = Ok (st', false) →
  st' = st
  ∨ ∃ r, st' = {| reviews := reviews st ++ [r];
                  seen_reviews_set := {[review_key r]} ∪ seen_reviews_set st;
                  stop_scraping := stop_scraping st |}
         ∧ (review_key r ∉ existing_reviews_set env)
         ∧ (review_key r ∉ seen_reviews_set st)
         ∧ ∃ comment, r_comment r = normalize_comment comment.
Proof.
  unfold parse_block. intros H.
  destruct (date_of block) as [date|]; simpl in H; [|done].
  destruct (not_newer env date); [done|].
  destruct (class_header block) as [hdr|]; simpl in H; [|done].
  destruct (course_code_mappings env !! PyStr.strip hdr) as [codes|];
    simpl in H; [|done].
  destruct (rating_or (quality_elem block) (overall_rating env))
    as [quality|]; simpl in H; [|done].
  destruct (rating_or (difficulty_elem block) (level_of_difficulty env))
    as [difficulty|]; simpl in H; [|done].
  destruct (comments_div block) as [comment|]; simpl in H; [|done].
  destruct (is_valid_comment (PyStr.strip comment)); simpl in H;
    [|injection H as <-; by left].
  destruct (detect_sentiment (PyStr.strip comment)) as [score label].
  destruct (bool_decide _ || bool_decide _) eqn:Hdup; injection H as <-.
  - by left.
  - right. apply orb_false_iff in Hdup as [Hex Hseen].
    apply bool_decide_eq_false in Hex, Hseen.
    match goal with
    | |- context [reviews st ++ [?r]] => exists r
    end.
    split; [reflexivity|]. split; [done|]. split; [done|]. by eexists.
Qed.

(* Once the reviews seen include the ones the block added, the block adds
   nothing. *)
Lemma parse_block_again (st st' st2 : loop_state) (block : review_block) :
  parse_block env st block = Ok (st', false) →
  seen_reviews_set st' ⊆ seen_reviews_set st2 →
  parse_block env st2 block = Ok (st2, false).
Proof.
  unfold parse_block. intros H Hsub.
  destruct (date_of block) as [date|]; simpl in *; [|done].
  destruct (not_newer env date); [done|].
  destruct (class_header block) as [hdr|]; simpl in *; [|done].
  destruct (course_code_mappings env !! PyStr.strip hdr) as [codes|];
    simpl in *; [|done].
  destruct (rating_or (quality_elem block) (overall_rating env))
    as [quality|]; simpl in *; [|done].
  destruct (rating_or (difficulty_elem block) (level_of_difficulty env))
    as [difficulty|]; simpl in *; [|done].
  destruct (comments_div block) as [comment|]; simpl in *; [|done].
  destruct (is_valid_comment (PyStr.strip comment)); simpl in *; [|done].
  destruct (detect_sentiment (PyStr.strip comment)) as [score label].
  destruct (bool_decide (_ ∈ existing_reviews_set env)) eqn:Hex;
    simpl in *; [done|].
  destruct (bool_decide (_ ∈ seen_reviews_set st)) eqn:Hseen.
  - injection H as <-. apply bool_decide_eq_true in Hseen.
    rewrite bool_decide_eq_true_2; [done|]. by apply Hsub.
  - injection H as <-. simpl in Hsub.
    rewrite bool_decide_eq_true_2; [done|].
    apply Hsub. by apply elem_of_union_l, elem_of_singleton.
Qed.

Lemma parse_block_break (st st' : loop_state) (block : review_block) :
  parse_block env st block = Ok (st', true) → st' = stopped st.
Proof.
  intros H. by apply parse_block_spec in H as [(_ & -> & _)|(? & _)].
Qed.

Lemma for_blocks_seen (items : list review_block) (st : loop_state) :
  seen_reviews_set st ⊆ seen_reviews_set (for_blocks env st items).
Proof.
  revert st. induction items as [|block items IH]; intros st; simpl; [done|].
  destruct (rating_div block); [|apply IH].
  destruct (parse_block env st block) as [[st' [|]]|e] eqn:Hparse;
    [| |apply IH].
  - by apply parse_block_break in Hparse as ->.
  - etrans; [|apply IH].
    apply parse_block_outcome in Hparse as [->|(r & -> & _)]; [done|].
    simpl. apply union_subseteq_r.
Qed.

(* A turn that does not come to the watermark changes nothing when it is
   taken again. *)
Lemma for_blocks_again (items : list review_block) (st st2 : loop_state) :
  stop_scraping (for_blocks env st items) = false →
  seen_reviews_set (for_blocks env st items) ⊆ seen_reviews_set st2 →
  for_blocks env st2 items = st2.
Proof.
  revert st. induction items as [|block items IH]; intros st; simpl; [done|].
  destruct (rating_div block); [|apply IH].
  destruct (parse_block env st block) as [[st' [|]]|e] eqn:Hparse.
  - by apply parse_block_break in Hparse as ->.
  - intros Hstop Hsub.
    rewrite (parse_block_again st st' st2 block Hparse).
    + by apply (IH st').
    + etrans; [apply for_blocks_seen|exact Hsub].
  - intros Hstop Hsub. rewrite (parse_block_raise st st2 block e Hparse).
    by apply (IH st).
Qed.

(* The turns after the first one add nothing: the page is parsed once,
   before the loop. *)
Lemma while_reviews_once (clicks : nat) (items : list review_block)
    (st : loop_state) :
  while_reviews env clicks items st = for_blocks env st items.
Proof.
  revert st. induction clicks as [|clicks IH]; intros st; simpl.
  - by destruct (stop_scraping _).
  - destruct (stop_scraping _) eqn:Hstop; [done|].
    rewrite IH. by apply (for_blocks_again items st).
Qed.


End ReviewTurns.



(** X6: the turns of the review loop after the first one add nothing,
    however often the "Load More Ratings" button is found clickable: the
    page is parsed once, before the loop, so that every turn goes through
    the same review blocks, and what scrape_professor_comments writes does
    not depend on the button. *)
Theorem load_more_adds_nothing (L : Libraries) :
  (∀ env clicks review_items st,
     Rmp.while_reviews env clicks review_items st
     = Rmp.for_blocks env st review_items)
  ∧ ∀ p valid_courses page existing clicks,
      Rmp.scrape_professor_comments p valid_courses page existing clicks
      = Rmp.scrape_professor_comments p valid_courses page existing 0.
Proof.
  split; [apply while_reviews_once|].
  intros p valid_courses page existing clicks.
  unfold Rmp.scrape_professor_comments, Rmp.collect_reviews.
  destruct (Rmp.clean_and_map_course_codes _ valid_courses) as [mapping|e];
    cbn -[Rmp.while_reviews]; [|done].
  by rewrite !while_reviews_once.
Qed.











(** ** Where the chunks come from *)

Section Provenance.
Import Rmp.
Context {L : Libraries}.
Variable env : review_env.


End Provenance.




(** ** Where the professors come from *)

Section Cards.
Import Rmp.
Context {L : Libraries}.

Lemma add_cards_read_off (P : professor → Prop) (cards : list card)
    (st : collect_state) :
  (∀ c p, c ∈ cards → extract_card c = Ok p → P p) →
  Forall P (professors st) →
  Forall P (professors (foldl add_card st cards)).
Proof.
  revert st. induction cards as [|c cards IH]; intros st Hcards Hst; [done|].
  cbn [foldl]. apply IH.
  - intros c' p Hc'. apply Hcards. by right.
  - unfold add_card. destruct (extract_card c) as [p|e] eqn:Hc; [|done].
    case_bool_decide; [done|]. cbn [professors].
    apply Forall_app. split; [done|]. constructor; [|done].
    apply (Hcards c p); [left|done].
Qed.

Lemma collect_read_off (testing : bool)
    (all_views views : list (list card * show_more)) (st : collect_state) :
  views ⊆ all_views →
  Forall (read_off all_views) (professors st) →
  Forall (read_off all_views) (collect testing views st).
Proof.
  revert st. induction views as [|[cards button] views IH]; intros st Hsub Hst;
    [done|].
  cbn [collect].
  assert (Forall (read_off all_views)
            (professors
               (foldl add_card st (List.skipn (previous_count st) cards))))
    as Hstep.
  { apply add_cards_read_off; [|done].
    intros c p Hc Hp. exists cards, button, c.
    split; [apply Hsub; left|]. split; [|done].
    rewrite <- (take_drop (previous_count st) cards).
    apply elem_of_app. by right. }
  destruct button; cbn [professors]; try done.
  destruct (testing && _); [done|].
  apply IH; [|done]. intros x Hx. apply Hsub. by right.
Qed.
End Cards.

(** X12: every professor that scrape_professors returns was read off a
    card of the search page without an exception, and the professors
    collected lose no name when they are made unique by name: every name
    collected is the name of a professor returned. *)
Theorem professors_come_from_cards (L : Libraries) (testing : bool)
    (views : list (list Rmp.card * Rmp.show_more)) :
  (∀ p, p ∈ Rmp.scrape_professors testing views → read_off views p)
  ∧ ∀ q, q ∈ Rmp.collect testing views no_professor →
         ∃ p, p ∈ Rmp.scrape_professors testing views
              ∧ Rmp.p_name p = Rmp.p_name q.
Proof.
  destruct (values_by_name_spec (Rmp.collect testing views no_professor))
    as [_ Hspec].
  split.
  - intros p Hp. apply Hspec in Hp. apply last_such_holds in Hp as [Hp _].
    pose proof (collect_read_off testing views views no_professor
                  ltac:(done) ltac:(constructor)) as Hall.
    rewrite Forall_forall in Hall. by apply Hall.
  - intros q Hq.
    destruct (last_such (λ x, Rmp.p_name x = Rmp.p_name q)
                (Rmp.collect testing views no_professor)) as [p|] eqn:Hlast.
    + pose proof Hlast as [_ Hname]%last_such_holds.
      exists p. split; [|done]. apply Hspec. by rewrite Hname.
    + rewrite last_such_None in Hlast. by destruct (Hlast q Hq).
Qed.

(** ** The main program of rmp_scraper.py *)

Section RmpRun.
Import Rmp RmpMain.
Context {L : Libraries}.

Lemma to_scrape_professor_names (previous : list previous_professor)
    (profs : list professor) :
  names_of (to_scrape_professor previous profs) `sublist_of` p_name <$> profs.
Proof.
  rewrite to_scrape_professor_join. unfold names_of.
  generalize (previous_professors_dict previous) as d. intros d.
  induction profs as [|p profs IH]; csimpl; [done|].
  rewrite fmap_app. unfold to_scrape_one at 1.
  destruct (d !! p_name p) as [[stored date]|]; csimpl.
  - case_bool_decide; csimpl.
    + by apply sublist_skip.
    + by apply sublist_cons.
  - by apply sublist_skip.
Qed.

Lemma for_professors_app (valid_courses : list string)
    (browser : prof_to_scrape → visit) (before after : list prof_to_scrape) :
  for_professors valid_courses browser (before ++ after)
  = match for_professors valid_courses browser before with
    | (writes, Some e) => (writes, Some e)
    | (writes, None) =>
        let '(writes', e) := for_professors valid_courses browser after in
        (writes ++ writes', e)
    end.
Proof.
  induction before as [|p before IH]; simpl.
  - by destruct (for_professors _ _ after).
  - destruct (scrape_professor_comments_io p valid_courses (browser p))
      as [writes|e]; [|done].
    rewrite IH.
    destruct (for_professors _ _ before) as [writes1 [e|]]; [done|].
    destruct (for_professors _ _ after) as [writes2 e].
    by rewrite app_assoc.
Qed.

Lemma get_all_valid_courses_spec (course_codes : list string) :
  NoDup (get_all_valid_courses course_codes)
  ∧ ∀ c, c ∈ get_all_valid_courses course_codes
         ↔ c ∈ course_codes ∧ c ≠ "general_course".
Proof.
  unfold get_all_valid_courses.
  induction course_codes as [|x course_codes [IHnd IH]] using rev_ind.
  - split; [apply NoDup_nil_2|]. intros c. simpl. split.
    + by intros ?%not_elem_of_nil.
    + by intros [?%not_elem_of_nil _].
  - rewrite foldl_app. simpl. case_bool_decide as Hx.
    + split; [by apply set_add_NoDup|].
      intros c. rewrite set_add_elem_of, IH, elem_of_app,
        list_elem_of_singleton.
      split.
      * intros [->|[? ?]]; [by split; [right|]|by split; [left|]].
      * intros [[?| ->] ?]; [by right|by left].
    + split; [done|]. intros c.
      rewrite IH, elem_of_app, list_elem_of_singleton. split.
      * intros [? ?]. by split; [left|].
      * intros [[?| ->] ?]; [done|]. by destruct Hx.
Qed.
End RmpRun.

(** X13: in one run of the main program no two professors scraped have the
    same name: the professors handed to scrape_professor_comments are
    selected, in order, from those that scrape_professors returns, one per
    name; and the valid course codes are those of the courses table, each
    once, without "general_course". *)
Theorem one_scrape_per_name (L : Libraries)
    (views : list (list Rmp.card * Rmp.show_more))
    (previous : list Rmp.previous_professor) (course_codes : list string) :
  let professors := Rmp.scrape_professors false views in
  let professors_to_scrape := Rmp.to_scrape_professor previous professors in
  NoDup (names_of professors_to_scrape)
  ∧ names_of professors_to_scrape `sublist_of` Rmp.p_name <$> professors
  ∧ NoDup (RmpMain.get_all_valid_courses course_codes)
  ∧ ∀ c, c ∈ RmpMain.get_all_valid_courses course_codes
         ↔ c ∈ course_codes ∧ c ≠ "general_course".
Proof.
  intros professors professors_to_scrape.
  pose proof (to_scrape_professor_names previous professors) as Hsub.
  destruct (get_all_valid_courses_spec course_codes) as [Hnd Hvalid].
  split; [|done].
  eapply sublist_NoDup; [|exact Hsub].
  apply (values_by_name_spec
           (Rmp.collect false views
              {| Rmp.professors := []; Rmp.seen_professor_ids := ∅;
                 Rmp.previous_count := 0 |})).
Qed.

(* An exception of a professor ends the loop: the writes are those of the
   professors before. *)
Lemma for_professors_raise (L : Libraries) (valid_courses : list string)
    (browser : Rmp.prof_to_scrape → RmpMain.visit)
    (before after : list Rmp.prof_to_scrape) (p : Rmp.prof_to_scrape)
    (e : exn) :
  RmpMain.scrape_professor_comments_io p valid_courses (browser p) = Raise e →
  (RmpMain.for_professors valid_courses browser (before ++ p :: after)).1
  = (RmpMain.for_professors valid_courses browser before).1
  ∧ is_Some
      (RmpMain.for_professors valid_courses browser (before ++ p :: after)).2
  ∧ ((RmpMain.for_professors valid_courses browser before).2 = None →
     (RmpMain.for_professors valid_courses browser (before ++ p :: after)).2
     = Some e).
Proof.
  intros Hp. rewrite for_professors_app.
  destruct (RmpMain.for_professors valid_courses browser before)
    as [writes [e'|]]; simpl.
  - split; [done|]. split; [by eexists|done].
  - rewrite Hp. simpl. rewrite app_nil_r. split; [done|].
    split; [by eexists|done].
Qed.

(** X14: a professor whose course menu has an entry that is letters only
    once cleaned, and is not a canonical course code, ends the main program
    with TypeError: nothing is written for this professor, the writes made
    are those for the professors selected before it, and none of the
    professors after it is scraped, whatever their pages are. *)
Theorem unmappable_menu_ends_the_run (L : Libraries)
    (views : list (list Rmp.card * Rmp.show_more))
    (previous : list Rmp.previous_professor) (course_codes : list string)
    (browser : Rmp.prof_to_scrape → RmpMain.visit)
    (before after : list Rmp.prof_to_scrape) (p : Rmp.prof_to_scrape)
    (page : Rmp.prof_page) (raw_code : string) :
  let valid_courses := RmpMain.get_all_valid_courses course_codes in
  Rmp.to_scrape_professor previous (Rmp.scrape_professors false views)
  = before ++ p :: after →
  RmpMain.v_page (browser p) = Some page →
  raw_code ∈ Rmp.all_courses_of (PyStr.split "010" (Rmp.menu_text page)) →
  PyStr.isalpha (Rmp.cleaned_of raw_code) = true →
  Rmp.valid_courses_no_space valid_courses !! Rmp.cleaned_of raw_code = None →
  (RmpMain.main views previous course_codes browser).1
  = (RmpMain.for_professors valid_courses browser before).1
  ∧ is_Some (RmpMain.main views previous course_codes browser).2
  ∧ ((RmpMain.for_professors valid_courses browser before).2 = None →
     (RmpMain.main views previous course_codes browser).2 = Some TypeError).
Proof.
  intros valid_courses Hsel Hpage Hraw Halpha Hexact.
  unfold RmpMain.main. rewrite Hsel. fold valid_courses.
  apply for_professors_raise.
  unfold RmpMain.scrape_professor_comments_io. rewrite Hpage.
  unfold Rmp.scrape_professor_comments, Rmp.collect_reviews.
  by rewrite (letters_only_code_raises _ _ _ Hraw Halpha Hexact).
Qed.

Lemma unmappable_menu_ends_the_run_witness :
  let card (name href num : string) :=
    {| Rmp.card_name := Some name;
       Rmp.card_department := Some "Computer Science";
       Rmp.card_school := Some "Queen's University at Kingston";
       Rmp.card_rating := Some "4.5";
       Rmp.card_num_ratings := Some (num +:+ " ratings");
       Rmp.card_href := Some href |} in
  let views :=
    [([card "John Smith" "/professor/1001" "12";
       card "Jane Doe" "/professor/1002" "3";
       card "Ann Lee" "/professor/1003" "10"], Rmp.NoButton)] in
  let anat_page :=
    {| Rmp.rating_elem := Some "4.5"; Rmp.feedback_numbers := [];
       Rmp.teacher_tags := [];
       Rmp.menu_text := "All courses" +:+ Examples.nl +:+ "ANAT (3)";
       Rmp.ratings_list := Some [Examples.review_jan] |} in
  let smith := Examples.smith None in
  let doe :=
    {| Rmp.prof := Examples.professor "Jane Doe" "1002" 3;
       Rmp.latest_comment_date := None |} in
  let lee :=
    {| Rmp.prof := Examples.professor "Ann Lee" "1003" 10;
       Rmp.latest_comment_date := None |} in
  let browser (p : Rmp.prof_to_scrape) :=
    {| RmpMain.v_page :=
         Some (if String.eqb (Rmp.p_name (Rmp.prof p)) "Jane Doe"
               then anat_page else Examples.page [Examples.review_jan]);
       RmpMain.v_existing := []; RmpMain.v_clicks := 0 |} in
  let course_codes := ["CISC 121"; "general_course"; "CISC 124"] in
  Rmp.to_scrape_professor [] (Rmp.scrape_professors (L := Examples.libraries)
                                false views)
  = [smith] ++ doe :: [lee]
  ∧ RmpMain.v_page (browser doe) = Some anat_page
  ∧ "ANAT" ∈ Rmp.all_courses_of (PyStr.split "010" (Rmp.menu_text anat_page))
  ∧ PyStr.isalpha (Rmp.cleaned_of "ANAT") = true
  ∧ Rmp.valid_courses_no_space (RmpMain.get_all_valid_courses course_codes)
      !! Rmp.cleaned_of "ANAT" = None
  ∧ (RmpMain.main (L := Examples.libraries) views [] course_codes browser).1
    = (RmpMain.for_professors (L := Examples.libraries)
         (RmpMain.get_all_valid_courses course_codes) browser [smith]).1
  ∧ (RmpMain.main (L := Examples.libraries) views [] course_codes browser).2
    = Some TypeError
  ∧ length
      (RmpMain.main (L := Examples.libraries) views [] course_codes browser).1
    = 2.
Proof.
  intros card views anat_page smith doe lee browser course_codes.
  assert (Rmp.to_scrape_professor []
            (Rmp.scrape_professors (L := Examples.libraries) false views)
          = [smith] ++ doe :: [lee]) as Hsel by (vm_compute; reflexivity).
  assert (RmpMain.v_page (browser doe) = Some anat_page) as Hpage
    by reflexivity.
  assert ("ANAT" ∈ Rmp.all_courses_of
                     (PyStr.split "010" (Rmp.menu_text anat_page))) as Hraw.
  { apply (bool_decide_unpack _). vm_compute. exact I. }
  assert (PyStr.isalpha (Rmp.cleaned_of "ANAT") = true) as Halpha
    by (vm_compute; reflexivity).
  assert (Rmp.valid_courses_no_space
            (RmpMain.get_all_valid_courses course_codes)
            !! Rmp.cleaned_of "ANAT" = None) as Hexact
    by (vm_compute; reflexivity).
  destruct (unmappable_menu_ends_the_run Examples.libraries views []
              course_codes browser [smith] [lee] doe anat_page "ANAT"
              Hsel Hpage Hraw Halpha Hexact) as (Hwrites & _ & Hexn).
  split; [exact Hsel|]. split; [exact Hpage|]. split; [exact Hraw|].
  split; [exact Halpha|]. split; [exact Hexact|]. split; [exact Hwrites|].
  split.
  - apply Hexn. vm_compute. reflexivity.
  - vm_compute. reflexivity.
Defined.

(** ** The frame of scraped courses *)

Section ScrapedFrame.
Import Course.

Lemma drop_duplicates_from_spec (rows : list row) (k : nat)
    (seen : gset string) (z : Z) (r : row) :
  (z, r) ∈ drop_duplicates_from seen (imap (λ i x, (Z.of_nat (k + i), x)) rows)
  ↔ ∃ i, z = Z.of_nat (k + i) ∧ rows !! i = Some r
         ∧ (course_code r ∉ seen)
         ∧ ∀ j r', j < i → rows !! j = Some r' →
                   course_code r' ≠ course_code r.
Proof.
  revert k seen. induction rows as [|x rows IH]; intros k seen.
  - simpl. split.
    + by intros ?%not_elem_of_nil.
    + by intros (i & _ & ? & _).
  - cbn [imap drop_duplicates_from].
    assert (∀ seen',
              (z, r) ∈ drop_duplicates_from seen'
                         (imap ((λ i x, (Z.of_nat (k + i), x)) ∘ S) rows)
              ↔ ∃ i, z = Z.of_nat (k + S i) ∧ rows !! i = Some r
                     ∧ (course_code r ∉ seen')
                     ∧ ∀ j r', j < i → rows !! j = Some r' →
                               course_code r' ≠ course_code r) as IH'.
    { intros seen'.
      rewrite (imap_ext _ (λ i x, (Z.of_nat (S k + i), x)))
        by (intros; simpl; f_equal; lia).
      rewrite IH. split; intros (i & -> & ?); exists i; split; [lia|done|lia|done]. }
    case_bool_decide as Hseen.
    + rewrite IH'. split.
      * intros (i & -> & Hi & Hr & Hfirst). exists (S i).
        split; [done|]. split; [done|]. split; [done|].
        intros [|j] r' Hj; simpl.
        -- intros [= <-] Heq. apply Hr. by rewrite <- Heq.
        -- apply Hfirst. lia.
      * intros ([|i] & -> & Hi & Hr & Hfirst); simpl in Hi.
        -- injection Hi as <-. done.
        -- exists i. split; [done|]. split; [done|]. split; [done|].
           intros j r' Hj Hr'. apply (Hfirst (S j)); [lia|done].
    + rewrite elem_of_cons, IH'. split.
      * intros [[= -> ->]|(i & -> & Hi & Hr & Hfirst)].
        -- exists 0. split; [done|]. split; [done|]. split; [done|].
           intros j r' Hj. lia.
        -- exists (S i). split; [done|]. split; [done|].
           split; [intros Hin; by apply Hr, elem_of_union_r|].
           intros [|j] r' Hj; simpl.
           ++ intros [= <-] Heq. apply Hr. rewrite <- Heq.
              by apply elem_of_union_l, elem_of_singleton.
           ++ apply Hfirst. lia.
      * intros ([|i] & -> & Hi & Hr & Hfirst); simpl in Hi.
        -- injection Hi as <-. left. do 2 f_equal.
        -- right. exists i. split; [done|]. split; [done|]. split.
           ++ apply not_elem_of_union. split; [|done].
              apply not_elem_of_singleton. intros Heq.
              by apply (Hfirst 0 x ltac:(lia) eq_refl).
           ++ intros j r' Hj Hr'. apply (Hfirst (S j)); [lia|done].
Qed.

Lemma drop_duplicates_from_codes (df : frame) (seen : gset string) :
  NoDup ((λ ir, course_code ir.2) <$> drop_duplicates_from seen df)
  ∧ ∀ ir, ir ∈ drop_duplicates_from seen df → course_code ir.2 ∉ seen.
Proof.
  revert seen. induction df as [|[index r] df IH]; intros seen.
  - split; [apply NoDup_nil_2|]. by intros ir ?%not_elem_of_nil.
  - cbn [drop_duplicates_from]. case_bool_decide as Hseen; [apply IH|].
    destruct (IH ({[course_code r]} ∪ seen)) as [IHnd IHseen]. split.
    + csimpl. apply NoDup_cons. split; [|done].
      intros [ir [Heq Hin]]%list_elem_of_fmap.
      apply IHseen in Hin. rewrite <- Heq in Hin.
      by apply Hin, elem_of_union_l, elem_of_singleton.
    + intros ir [->|Hin]%elem_of_cons; [done|].
      apply IHseen in Hin. intros Hs. by apply Hin, elem_of_union_r.
Qed.

Lemma drop_duplicates_from_sublist (df : frame) (seen : gset string) :
  drop_duplicates_from seen df `sublist_of` df.
Proof.
  revert seen. induction df as [|[index r] df IH]; intros seen; [done|].
  cbn [drop_duplicates_from]. case_bool_decide.
  - by apply sublist_cons_r; left.
  - by apply sublist_skip.
Qed.

(* Nothing is dropped from a frame whose course codes are distinct. *)
Lemma drop_duplicates_from_id (df : frame) (seen : gset string) :
  NoDup ((λ ir, course_code ir.2) <$> df) →
  (∀ ir, ir ∈ df → course_code ir.2 ∉ seen) →
  drop_duplicates_from seen df = df.
Proof.
  revert seen. induction df as [|[index r] df IH]; intros seen Hnd Hseen;
    [done|].
  csimpl in Hnd. apply NoDup_cons in Hnd as [Hr Hnd].
  cbn [drop_duplicates_from].
  rewrite bool_decide_eq_false_2 by (apply (Hseen (index, r)); left).
  f_equal. apply IH; [done|].
  intros ir Hin. apply not_elem_of_union. split.
  - apply not_elem_of_singleton. intros Heq. apply Hr.
    apply list_elem_of_fmap. by exists ir.
  - apply Hseen. by right.
Qed.

Lemma concat_rows_codes (rows : list row) :
  (λ ir : Z * row, course_code ir.2) <$> concat_rows rows
  = course_code <$> rows.
Proof.
  rewrite <- (concat_rows_rows rows) at 2.
  by rewrite <- list_fmap_compose.
Qed.

(* The batches, and the entries still in upsert_payload, are never longer
   than a positive batch size; no batch is empty. *)
Lemma upsert_loop_batches (d : gmap string (option Q * option Q))
    (batch_size : Z) (len : nat) (df : frame)
    (st : list payload * list (list payload)) :
  (1 ≤ batch_size)%Z →
  (Z.of_nat (length st.1) < batch_size)%Z →
  Forall (λ b, b ≠ [] ∧ (Z.of_nat (length b) ≤ batch_size)%Z) st.2 →
  let st' := foldl (upsert_step d batch_size len) st df in
  (Z.of_nat (length st'.1) < batch_size)%Z
  ∧ Forall (λ b, b ≠ [] ∧ (Z.of_nat (length b) ≤ batch_size)%Z) st'.2.
Proof.
  intros Hbs. revert st.
  induction df as [|[index r] df IH]; intros [pl sent] Hpl Hsent; [done|].
  cbn [foldl]. apply IH; unfold upsert_step; simpl in *.
  - destruct (Z.eqb_spec (Z.of_nat (length (pl ++ [payload_of d r])))
                batch_size) as [Heq|Hne]; simpl; [lia|].
    destruct (index =? Z.of_nat len - 1)%Z; simpl; [lia|].
    rewrite length_app in *. simpl in *. lia.
  - destruct (_ || _); simpl; [|done].
    apply Forall_app. split; [done|]. constructor; [|constructor]. split.
    + by destruct pl.
    + rewrite length_app. simpl. lia.
Qed.
End ScrapedFrame.

(** X15: the frame that scrape_all_course returns has one row per course
    code: a scraped course is kept exactly when no course scraped before it
    has the same code, in the order scraped, and the index label it keeps is
    its position among all scraped courses, duplicates included. *)
Theorem scraped_frame_first_of_each_code (scraped : list Course.row) :
  NoDup ((λ ir, Course.course_code ir.2) <$> Course.scrape_all_course scraped)
  ∧ Course.scrape_all_course scraped `sublist_of` Course.concat_rows scraped
  ∧ ∀ (i : nat) (r : Course.row),
      (Z.of_nat i, r) ∈ Course.scrape_all_course scraped
      ↔ scraped !! i = Some r
        ∧ ∀ j r', j < i → scraped !! j = Some r' →
                  Course.course_code r' ≠ Course.course_code r.
Proof.
  unfold Course.scrape_all_course, Course.drop_duplicates. split; [|split].
  - apply drop_duplicates_from_codes.
  - apply drop_duplicates_from_sublist.
  - intros i r. unfold Course.concat_rows.
    rewrite (drop_duplicates_from_spec scraped 0 ∅). split.
    + intros (i' & Hi & Hr & _ & Hfirst).
      assert (i' = i) as -> by lia. done.
    + intros [Hr Hfirst]. exists i. split; [done|]. split; [done|].
      split; [apply not_elem_of_empty|done].
Qed.

(** X16: with a batch size of at least one, no batch that
    upsert_course_data_to_supabase upserts is empty or longer than the batch
    size, and the batches taken together are the payload entries of the
    first rows of the frame, in order: no entry is written twice or out of
    order. *)
Theorem upsert_batches_bounded (existing : list Course.existing_course)
    (course_data : Course.frame) (batch_size : Z) :
  (1 ≤ batch_size)%Z →
  let batches :=
    Course.upsert_course_data_to_supabase existing course_data batch_size in
  Forall (λ b, b ≠ [] ∧ (Z.of_nat (length b) ≤ batch_size)%Z) batches
  ∧ concat batches
    `prefix_of` (Course.payload_of (Course.existing_courses_of existing)
                   <$> course_data.*2).
Proof.
  intros Hbs batches. split.
  - unfold batches, Course.upsert_course_data_to_supabase, Course.upsert_loop.
    apply upsert_loop_batches; simpl; [done|lia|constructor].
  - pose proof (upsert_loop_entries (Course.existing_courses_of existing)
                  batch_size (length course_data) course_data ([], []))
      as Hall.
    simpl in Hall. rewrite <- Hall. by eexists.
Qed.

Lemma upsert_batches_bounded_witness :
  let course_data :=
    Course.scrape_all_course
      [Examples.course "CISC 121" "Introduction to Computing Science I";
       Examples.course "CISC 124" "Introduction to Computing Science II";
       Examples.course "CISC 203" "Discrete Mathematics";
       Examples.course "CISC 204" "Logic for Computing Science";
       Examples.course "CISC 221" "Computer Architecture"] in
  (1 ≤ 2)%Z
  ∧ length <$> Course.upsert_course_data_to_supabase [] course_data 2
    = [2; 2; 1]
  ∧ Forall (λ b, b ≠ [] ∧ (Z.of_nat (length b) ≤ 2)%Z)
      (Course.upsert_course_data_to_supabase [] course_data 2).
Proof.
  intros course_data.
  assert (1 ≤ 2)%Z as Hbs by lia.
  split; [exact Hbs|]. split; [vm_compute; reflexivity|].
  exact (proj1 (upsert_batches_bounded [] course_data 2 Hbs)).
Defined.

(** X17: when no course was scraped twice, scrape_all_course followed by
    upsert_course_data_to_supabase writes one payload entry for every scraped
    course, in the order scraped, whatever the batch size is. *)
Theorem distinct_courses_all_written (existing : list Course.existing_course)
    (scraped : list Course.row) (batch_size : Z) :
  NoDup (Course.course_code <$> scraped) →
  concat (Course.upsert_course_data_to_supabase existing
            (Course.scrape_all_course scraped) batch_size)
  = Course.payload_of (Course.existing_courses_of existing) <$> scraped.
Proof.
  intros Hnd. unfold Course.scrape_all_course, Course.drop_duplicates.
  rewrite drop_duplicates_from_id.
  - apply range_index_writes_all_rows.
  - by rewrite concat_rows_codes.
  - intros ir _. apply not_elem_of_empty.
Qed.

Lemma distinct_courses_all_written_witness :
  let scraped :=
    [Examples.course "CISC 121" "Introduction to Computing Science I";
     Examples.course "CISC 124" "Introduction to Computing Science II";
     Examples.course "CISC 203" "Discrete Mathematics"] in
  NoDup (Course.course_code <$> scraped)
  ∧ concat (Course.upsert_course_data_to_supabase []
              (Course.scrape_all_course scraped) 2)
    = Course.payload_of (Course.existing_courses_of []) <$> scraped.
Proof.
  intros scraped.
  assert (NoDup (Course.course_code <$> scraped)) as Hnd.
  { apply (bool_decide_unpack _). vm_compute. exact I. }
  split; [exact Hnd|].
  exact (distinct_courses_all_written [] scraped 2 Hnd).
Defined.

(** ** Tags *)

(** X18: the tags of a text come from the closed vocabulary easy, hard,
    professor_review, course_structure, tips, each at most once and in this
    order. *)
Theorem detect_tags_vocabulary (text : string) :
  Reddit.detect_tags text `sublist_of` tag_vocabulary.
Proof.
  unfold Reddit.detect_tags, tag_vocabulary.
  repeat match goal with
         | |- context [if ?b then _ else _] => destruct b
         end; simpl;
    repeat first [apply sublist_nil | apply sublist_skip | apply sublist_cons].
Qed.

Section Negation.
Import PyStr Re Reddit.

Lemma prefix_append (p s : string) :
  String.prefix p s = true → s = p +:+ drop (String.length p) s.
Proof.
  revert s. induction p as [|a p IH]; intros s; [done|].
  destruct s as [|c s]; simpl; [done|].
  destruct (Ascii.ascii_dec a c) as [->|]; [|done].
  intros Hp. change (String c s = String c (p +:+ drop (String.length p) s)).
  f_equal. by apply IH.
Qed.

(* A regex that matches wherever a literal starts matches somewhere in a
   text that contains the literal. *)
Lemma search_from_contains (r : regex) (word : string) :
  (∀ prev s, String.prefix word s = true → is_Some (match_here r prev s)) →
  ∀ s prev, contains s word = true → is_Some (search_from r prev s).
Proof.
  intros Hhere s. induction s as [|c s IH]; intros prev.
  - simpl. rewrite orb_false_r. intros Hp.
    destruct (Hhere prev "" Hp) as [[m rest] ->]. by eexists.
  - cbn [contains search_from]. intros [Hp|Hc]%orb_true_iff.
    + destruct (Hhere prev (String c s) Hp) as [[m rest] ->]. by eexists.
    + destruct (match_here r prev (String c s)) as [[m rest]|]; [by eexists|].
      destruct (IH (Some c) Hc) as [[[sk m] rest] ->]. by eexists.
Qed.

Lemma not_easy_here (word : string) (prev : option ascii) (s : string) :
  word ∈ ["easy"; "light"; "bird course"; "straightforward"] →
  String.prefix ("not " +:+ word) s = true →
  is_Some (match_here not_easy_re prev s).
Proof.
  intros Hword Hp. apply prefix_append in Hp. rewrite Hp.
  generalize (drop (String.length ("not " +:+ word)) s) as rest. intros rest.
  unfold match_here.
  repeat (apply elem_of_cons in Hword as [->|Hword]; [simpl; by eexists|]).
  by apply not_elem_of_nil in Hword.
Qed.

Lemma not_hard_here (word : string) (prev : option ascii) (s : string) :
  word ∈ ["hard"; "tough"; "difficult"; "challenging"; "brutal"; "intense"] →
  String.prefix ("not " +:+ word) s = true →
  is_Some (match_here not_hard_re prev s).
Proof.
  intros Hword Hp. apply prefix_append in Hp. rewrite Hp.
  generalize (drop (String.length ("not " +:+ word)) s) as rest. intros rest.
  unfold match_here.
  repeat (apply elem_of_cons in Hword as [->|Hword]; [simpl; by eexists|]).
  by apply not_elem_of_nil in Hword.
Qed.

Lemma tags_without_easy (b2 b3 b4 b5 : bool) :
  "easy" ∉ (if b2 then ["hard"] else [])
           ++ (if b3 then ["professor_review"] else [])
           ++ (if b4 then ["course_structure"] else [])
           ++ (if b5 then ["tips"] else []).
Proof.
  destruct b2, b3, b4, b5; simpl;
    repeat (apply not_elem_of_cons; split; [discriminate|]);
    apply not_elem_of_nil.
Qed.

Lemma tags_without_hard (b1 b3 b4 b5 : bool) :
  "hard" ∉ (if b1 then ["easy"] else [])
           ++ []
           ++ (if b3 then ["professor_review"] else [])
           ++ (if b4 then ["course_structure"] else [])
           ++ (if b5 then ["tips"] else []).
Proof.
  destruct b1, b3, b4, b5; simpl;
    repeat (apply not_elem_of_cons; split; [discriminate|]);
    apply not_elem_of_nil.
Qed.
End Negation.

(** X19: a text that has, in any letter case, "not " followed by easy, light,
    bird course or straightforward anywhere in it never gets the tag easy,
    whatever else it says; likewise "not " followed by hard, tough,
    difficult, challenging, brutal or intense rules out the tag hard. *)
Theorem negation_suppresses_tag (text word : string) :
  PyStr.contains (PyStr.lower text) ("not " +:+ word) = true →
  (word ∈ ["easy"; "light"; "bird course"; "straightforward"] →
   "easy" ∉ Reddit.detect_tags text)
  ∧ (word ∈ ["hard"; "tough"; "difficult"; "challenging"; "brutal"; "intense"] →
     "hard" ∉ Reddit.detect_tags text).
Proof.
  intros Hc. split; intros Hword; unfold Reddit.detect_tags.
  - assert (is_Some (Re.search Reddit.not_easy_re (PyStr.lower text))) as Hs.
    { unfold Re.search. apply fmap_is_Some.
      apply (search_from_contains _ ("not " +:+ word)); [|done].
      intros prev s. by apply not_easy_here. }
    rewrite (bool_decide_eq_true_2 _ Hs). cbn [negb andb app].
    apply tags_without_easy.
  - assert (is_Some (Re.search Reddit.not_hard_re (PyStr.lower text))) as Hs.
    { unfold Re.search. apply fmap_is_Some.
      apply (search_from_contains _ ("not " +:+ word)); [|done].
      intros prev s. by apply not_hard_here. }
    rewrite (bool_decide_eq_true_2 _ Hs). cbn [negb andb].
    apply tags_without_hard.
Qed.

Lemma negation_suppresses_tag_witness :
  let text := "Not light at all, the readings are NOT difficult; easy marks" in
  PyStr.contains (PyStr.lower text) ("not " +:+ "light") = true
  ∧ "light" ∈ ["easy"; "light"; "bird course"; "straightforward"]
  ∧ ("easy" ∉ Reddit.detect_tags text)
  ∧ Reddit.detect_tags text = ["course_structure"].
Proof.
  intros text.
  assert (PyStr.contains (PyStr.lower text) ("not " +:+ "light") = true)
    as Hc by (vm_compute; reflexivity).
  assert ("light" ∈ ["easy"; "light"; "bird course"; "straightforward"])
    as Hword by (right; left).
  split; [exact Hc|]. split; [exact Hword|]. split.
  - exact (proj1 (negation_suppresses_tag text "light" Hc) Hword).
  - vm_compute. reflexivity.
Defined.

(** ** Letter case in the Reddit filters *)

Section LetterCase.
Import PyStr Re Reddit.

Lemma to_lower_not_upper (c : ascii) : is_upper (to_lower c) = false.
Proof. by destruct c as [[] [] [] [] [] [] [] []]. Qed.

Lemma lower_no_upper (s : string) :
  sall (λ c, negb (is_upper c)) (lower s) = true.
Proof.
  induction s as [|c s IH]; [done|].
  unfold lower in *. simpl. by rewrite to_lower_not_upper, IH.
Qed.

Lemma prefix_sall (P : ascii → bool) (w s : string) :
  String.prefix w s = true → sall P s = true → sall P w = true.
Proof.
  revert s. induction w as [|a w IH]; intros s; [done|].
  destruct s as [|c s]; simpl; [done|].
  destruct (Ascii.ascii_dec a c) as [->|]; [|done].
  intros Hp [Hc Hs]%andb_true_iff. rewrite Hc. by apply (IH s).
Qed.

Lemma contains_sall (P : ascii → bool) (s w : string) :
  contains s w = true → sall P s = true → sall P w = true.
Proof.
  induction s as [|c s IH]; cbn [contains sall].
  - rewrite orb_false_r. intros Hp _. by apply (prefix_sall P w "").
  - intros [Hp|Hc]%orb_true_iff [Hc' Hs]%andb_true_iff.
    + apply (prefix_sall P w (String c s) Hp). simpl. by rewrite Hc', Hs.
    + by apply IH.
Qed.

Lemma prefix_app (w s : string) : String.prefix w (w +:+ s) = true.
Proof.
  induction w as [|a w IH]; [by destruct s|].
  rewrite sapp_cons. simpl. by destruct (Ascii.ascii_dec a a).
Qed.

Lemma contains_prefix (s w : string) :
  String.prefix w s = true → contains s w = true.
Proof. intros Hp. destruct s; cbn [contains]; by rewrite Hp. Qed.

Lemma contains_iff (s w : string) :
  contains s w = true ↔ ∃ pre post, s = pre +:+ w +:+ post.
Proof.
  split.
  - induction s as [|c s IH]; cbn [contains].
    + rewrite orb_false_r. intros Hp%prefix_append.
      by exists "", (drop (String.length w) "").
    + intros [Hp%prefix_append|Hc]%orb_true_iff.
      * by exists "", (drop (String.length w) (String c s)).
      * destruct (IH Hc) as (pre & post & ->). by exists (String c pre), post.
  - intros (pre & post & ->). induction pre as [|c pre IH].
    + rewrite sapp_nil_l. apply contains_prefix, prefix_app.
    + rewrite sapp_cons. cbn [contains]. by rewrite IH, orb_true_r.
Qed.

Lemma contains_infix (s a w b : string) :
  contains s (a +:+ w +:+ b) = true → contains s w = true.
Proof.
  intros (pre & post & ->)%contains_iff. apply contains_iff.
  exists (pre +:+ a), (b +:+ post). by rewrite !sapp_assoc.
Qed.

(* A keyword with a capital letter is in no text in lower case. *)
Lemma contains_lower_capital (t1 t2 w : string) :
  sall (λ c, negb (is_upper c)) w = false →
  contains (lower t1 +:+ " " +:+ lower t2) w = false.
Proof.
  intros Hw. destruct (contains _ w) eqn:Hc; [|done].
  apply (contains_sall (λ c, negb (is_upper c))) in Hc; [congruence|].
  rewrite !sall_app, !lower_no_upper. done.
Qed.

Lemma any_in_keywords (full_text : string) :
  contains full_text "easy A" = false →
  any_in full_text general_course_keywords
  = any_in full_text
      ["course"; "classes"; "electives"; "program requirements"].
Proof.
  intros Heasy. unfold any_in, general_course_keywords. simpl.
  rewrite Heasy, !orb_false_r.
  destruct (contains full_text "course") eqn:Hcourse.
  - by rewrite orb_true_r.
  - assert (contains full_text "courses" = false) as ->.
    { destruct (contains full_text "courses") eqn:Hc; [|done].
      apply (contains_infix _ "" "course" "s") in Hc. congruence. }
    assert (contains full_text "bird courses" = false) as ->.
    { destruct (contains full_text "bird courses") eqn:Hc; [|done].
      apply (contains_infix _ "bird " "course" "s") in Hc. congruence. }
    simpl. by rewrite !orb_false_r.
Qed.

(* The pattern of professor names starts with a capital P or D. *)
Lemma prof_name_here (prev : option ascii) (s : string) :
  match s with
  | String c _ => is_upper c = false
  | EmptyString => True
  end →
  match_here PROF_NAME_REGEX prev s = None.
Proof.
  intros Hs. unfold match_here, PROF_NAME_REGEX. cbn [run].
  destruct (xorb _ _); [|done].
  destruct s as [|c s]; [done|]. cbn [lit].
  destruct (Ascii.eqb_spec "P" c) as [<-|_]; [done|].
  destruct (Ascii.eqb_spec "D" c) as [<-|_]; [done|]. done.
Qed.

Lemma prof_name_search (prev : option ascii) (s : string) :
  sall (λ c, negb (is_upper c)) s = true →
  search_from PROF_NAME_REGEX prev s = None.
Proof.
  revert prev. induction s as [|c s IH]; intros prev Hs.
  - cbn [search_from]. by rewrite prof_name_here.
  - simpl in Hs. apply andb_true_iff in Hs as [Hc Hs].
    apply negb_true_iff in Hc.
    cbn [search_from]. rewrite prof_name_here by done. by rewrite IH.
Qed.
End LetterCase.

(** X20: the keyword "easy A" of is_post_of_interest never matches, for
    the text it is looked up in is in lower case, and "courses" and
    "bird courses" match only where "course" does: a post passes the test of
    the topic exactly when its text has a course code or one of course,
    classes, electives, program requirements. *)
Theorem easy_a_keyword_never_matches (p : Reddit.post) :
  let full_text :=
    PyStr.lower (Reddit.title p) +:+ " " +:+ PyStr.lower (Reddit.selftext p) in
  PyStr.contains full_text "easy A" = false
  ∧ Reddit.any_in full_text Reddit.general_course_keywords
    = Reddit.any_in full_text
        ["course"; "classes"; "electives"; "program requirements"]
  ∧ (Reddit.is_post_of_interest p = true →
     is_Some (Re.search Reddit.COURSE_CODE_REGEX full_text)
     ∨ ∃ keyword,
         keyword ∈ ["course"; "classes"; "electives"; "program requirements"]
         ∧ PyStr.contains full_text keyword = true).
Proof.
  intros full_text.
  assert (PyStr.contains full_text "easy A" = false) as Heasy.
  { by apply contains_lower_capital. }
  split; [exact Heasy|]. split; [by apply any_in_keywords|].
  unfold Reddit.is_post_of_interest. fold full_text.
  rewrite (any_in_keywords full_text Heasy).
  destruct (negb (Reddit.is_self p)); [done|].
  destruct (Reddit.over_18 p); [done|].
  destruct (String.eqb _ ""); [done|].
  case_bool_decide as Hcode; [by left|]. intros Hint. right.
  destruct (Reddit.any_in full_text _) eqn:Hany; [|done].
  apply existsb_exists in Hany as (keyword & Hin & Hc).
  exists keyword. split; [|done]. by apply list_elem_of_In.
Qed.

(** X21: the pattern of professor names is case-sensitive: a text without
    a capital letter yields no professor name, whatever titles and names it
    holds. *)
Theorem professor_name_needs_capitals (text : string) :
  PyStr.sall (λ c, negb (PyStr.is_upper c)) text = true →
  Reddit.extract_prof_name text = None.
Proof.
  intros Htext. unfold Reddit.extract_prof_name, Re.search.
  by rewrite prof_name_search.
Qed.

Lemma professor_name_needs_capitals_witness :
  let text := "honestly dr. john smith was the best prof i have had" in
  PyStr.sall (λ c, negb (PyStr.is_upper c)) text = true
  ∧ Reddit.extract_prof_name text = None
  ∧ Reddit.extract_prof_name
      "honestly Dr. John Smith was the best prof I have had"
    = Some "Dr. John Smith".
Proof.
  intros text.
  assert (PyStr.sall (λ c, negb (PyStr.is_upper c)) text = true) as Htext
    by (vm_compute; reflexivity).
  split; [exact Htext|]. split.
  - exact (professor_name_needs_capitals text Htext).
  - vm_compute. reflexivity.
Defined.

(** ** Course codes in Reddit text *)

Section CourseCode.
Import PyStr Re Reddit.









End CourseCode.



(** ** What the Reddit pipeline stores *)

Section RedditStore.
Import PyStr Reddit.
Context {L : Libraries}.
Variables courses professors : gset string.

(* A comment adds at most one row, and leaves the rows before it alone. *)
Lemma comment_step_spec (p : post) (post_course_code : option string)
    (prof_name : option string) (results : list comment_data) (c : comment) :
  c ∈ comments p →
  ∃ new,
    (comment_step courses professors p post_course_code (prof_name, results)
       c).2 = results ++ new
    ∧ Forall (stored_from courses professors p) new.
Proof.
  intros Hc. unfold comment_step.
  destruct (is_comment_of_interest c) eqn:Hint; cbn [negb];
    [|exists []; by rewrite app_nil_r].
  destruct (truthy (if truthy post_course_code then post_course_code
                    else extract_course_code_from_comment c)) eqn:Htemp;
    cbn [negb]; [|exists []; by rewrite app_nil_r].
  destruct (detect_sentiment (body c)) as [score label].
  destruct (if truthy post_course_code then post_course_code
            else extract_course_code_from_comment c) as [code|];
    [|done].
  cbn -[detect_tags]. case_bool_decide as Hcode; cbn -[detect_tags];
    [|exists []; by rewrite app_nil_r].
  eexists [_]. split; [done|]. constructor; [|constructor].
  unfold stored_from. cbn -[detect_tags].
  split; [done|]. split; [done|]. split; [by exists code|]. split.
  - destruct (if negb (truthy prof_name)
              then extract_prof_name_from_comment c else prof_name)
      as [name|].
    + case_bool_decide; eauto.
    + eauto.
  - by exists c.
Qed.

Lemma comments_loop_spec (p : post) (post_course_code : option string)
    (cs : list comment) (prof_name : option string)
    (results : list comment_data) :
  cs ⊆ comments p →
  ∃ new,
    (foldl (comment_step courses professors p post_course_code)
       (prof_name, results) cs).2 = results ++ new
    ∧ Forall (stored_from courses professors p) new.
Proof.
  revert prof_name results.
  induction cs as [|c cs IH]; intros prof_name results Hcs.
  - exists []. by rewrite app_nil_r.
  - cbn [foldl].
    destruct (comment_step_spec p post_course_code prof_name results c)
      as (new1 & Hnew1 & Hall1); [apply Hcs; left|].
    destruct (comment_step courses professors p post_course_code
                (prof_name, results) c) as [name1 results1].
    simpl in Hnew1. subst results1.
    destruct (IH name1 (results ++ new1)) as (new2 & Hnew2 & Hall2).
    { intros x Hx. apply Hcs. by right. }
    exists (new1 ++ new2). rewrite Hnew2, app_assoc. split; [done|].
    by apply Forall_app.
Qed.

Lemma post_step_spec (processed : gset string) (results : list comment_data)
    (p : post) :
  ∃ new,
    post_step courses professors processed results p = results ++ new
    ∧ Forall (λ d, (url p ∉ processed) ∧ is_post_of_interest p = true
                   ∧ stored_from courses professors p d) new.
Proof.
  unfold post_step.
  case_bool_decide as Hurl; [exists []; by rewrite app_nil_r|].
  destruct (is_post_of_interest p) eqn:Hint; cbn [negb];
    [|exists []; by rewrite app_nil_r].
  match goal with
  | |- context [foldl _ (?name, results) (comments p)] =>
      destruct (comments_loop_spec p
                  (if negb (truthy (extract_course_code_from_post p))
                   then None else extract_course_code_from_post p)
                  (comments p) name results) as (new & Hnew & Hall); [done|]
  end.
  exists new. split; [exact Hnew|].
  eapply Forall_impl; [exact Hall|]. by intros d Hd.
Qed.
End RedditStore.

(** X23: every row that scrape_and_store inserts comes from a comment of
    interest of a post of interest whose URL was not processed before; its
    source is "reddit", its course_code is a valid course code and its
    professor_name is a valid professor name or "general_prof".  With the
    sets that the main program builds, no row has the course_code
    "general_course". *)
Theorem reddit_rows_are_attributed (L : Libraries)
    (courses professors : gset string) (processed : list string)
    (new_posts : list Reddit.post) :
  Forall (λ d, ∃ p, p ∈ new_posts ∧ (Reddit.url p ∉ processed)
                    ∧ Reddit.is_post_of_interest p = true
                    ∧ stored_from courses professors p d)
         (Reddit.scrape_and_store courses professors processed new_posts)
  ∧ ∀ course_codes names,
      Forall (λ d, Reddit.course_code d ≠ Some "general_course")
        (RedditMain.main course_codes names processed new_posts).
Proof.
  assert (∀ courses professors,
            Forall (λ d, ∃ p, p ∈ new_posts ∧ (Reddit.url p ∉ processed)
                              ∧ Reddit.is_post_of_interest p = true
                              ∧ stored_from courses professors p d)
              (Reddit.scrape_and_store courses professors processed
                 new_posts)) as Hall.
  { clear courses professors. intros courses professors.
    unfold Reddit.scrape_and_store.
    assert (∀ posts results,
              posts ⊆ new_posts →
              ∃ new,
                foldl (Reddit.post_step courses professors
                         (list_to_set processed)) results posts
                = results ++ new
                ∧ Forall (λ d, ∃ p, p ∈ new_posts ∧ (Reddit.url p ∉ processed)
                                    ∧ Reddit.is_post_of_interest p = true
                                    ∧ stored_from courses professors p d)
                         new) as Hloop.
    { intros posts. induction posts as [|p posts IH]; intros results Hposts.
      - exists []. by rewrite app_nil_r.
      - cbn [foldl].
        destruct (post_step_spec courses professors (list_to_set processed)
                    results p) as (new1 & -> & Hall1).
        destruct (IH (results ++ new1)) as (new2 & -> & Hall2).
        { intros x Hx. apply Hposts. by right. }
        exists (new1 ++ new2). rewrite app_assoc. split; [done|].
        apply Forall_app. split; [|done].
        eapply Forall_impl; [exact Hall1|].
        intros d (Hurl & Hint & Hd). exists p.
        split; [apply Hposts; left|].
        split; [|done]. intros Hin. apply Hurl.
        by apply elem_of_list_to_set. }
    destruct (Hloop new_posts [] ltac:(done)) as (new & -> & Hnew).
    exact Hnew. }
  split; [apply Hall|].
  intros course_codes names. unfold RedditMain.main.
  eapply Forall_impl; [apply Hall|].
  intros d (p & _ & _ & _ & _ & _ & (code & -> & Hcode) & _).
  intros [= ->]. unfold RedditMain.valid_courses_of in Hcode.
  apply elem_of_list_to_set, list_elem_of_filter in Hcode as [Hne _]. done.
Qed.

(* A comment of interest with a valid course code, met when a professor name
   is already known, is stored under that name, and the name is kept. *)
Lemma comment_step_named (L : Libraries) (courses professors : gset string)
    (p : Reddit.post) (code name : string)
    (results : list Reddit.comment_data) (c : Reddit.comment) :
  PyStr.truthy (Some name) = true →
  PyStr.truthy (Some code) = true →
  code ∈ courses →
  Reddit.is_comment_of_interest c = true →
  ∃ d,
    Reddit.comment_step courses professors p (Some code) (Some name, results) c
    = (Some name, results ++ [d])
    ∧ Reddit.text d = Reddit.body c
    ∧ Reddit.course_code d = Some code
    ∧ Reddit.professor_name d = Some (stored_name professors name).
Proof.
  intros Hname Hcode Hvalid Hint. unfold Reddit.comment_step.
  rewrite Hint, Hcode. cbn [negb]. rewrite Hcode, Hname. cbn [negb].
  destruct (Reddit.detect_sentiment (Reddit.body c)) as [score label].
  cbn -[Reddit.detect_tags]. rewrite bool_decide_eq_true_2 by done.
  eexists. split; [done|]. cbn -[Reddit.detect_tags].
  split; [done|]. split; [done|]. unfold stored_name.
  by case_bool_decide.
Qed.

(* The first comment that names a professor sets the name. *)
Lemma comment_step_names (L : Libraries) (courses professors : gset string)
    (p : Reddit.post) (code name : string)
    (results : list Reddit.comment_data) (c : Reddit.comment) :
  Reddit.extract_prof_name_from_comment c = Some name →
  PyStr.truthy (Some code) = true →
  code ∈ courses →
  Reddit.is_comment_of_interest c = true →
  ∃ d,
    Reddit.comment_step courses professors p (Some code) (None, results) c
    = (Some name, results ++ [d])
    ∧ Reddit.text d = Reddit.body c
    ∧ Reddit.course_code d = Some code
    ∧ Reddit.professor_name d = Some (stored_name professors name).
Proof.
  intros Hname Hcode Hvalid Hint. unfold Reddit.comment_step.
  rewrite Hint, Hcode. cbn [negb]. rewrite Hcode. cbn [negb PyStr.truthy].
  rewrite Hname.
  destruct (Reddit.detect_sentiment (Reddit.body c)) as [score label].
  cbn -[Reddit.detect_tags]. rewrite bool_decide_eq_true_2 by done.
  eexists. split; [done|]. cbn -[Reddit.detect_tags].
  split; [done|]. split; [done|]. unfold stored_name.
  by case_bool_decide.
Qed.

(** X24: in a post that names a valid course and no professor, the first
    comment stored that names a professor gives its professor to the comment
    after it: the second comment is stored under the name found in the first
    one (or "general_prof" when that name is not a valid professor),
    whatever professor its own text names. *)
Theorem professor_name_carries_over (L : Libraries)
    (courses professors : gset string) (p : Reddit.post)
    (code name : string) (results : list Reddit.comment_data)
    (c1 c2 : Reddit.comment) :
  Reddit.extract_prof_name_from_comment c1 = Some name →
  PyStr.truthy (Some name) = true →
  PyStr.truthy (Some code) = true →
  code ∈ courses →
  Reddit.is_comment_of_interest c1 = true →
  Reddit.is_comment_of_interest c2 = true →
  ∃ d1 d2,
    foldl (Reddit.comment_step courses professors p (Some code))
      (None, results) [c1; c2]
    = (Some name, results ++ [d1; d2])
    ∧ Reddit.text d1 = Reddit.body c1
    ∧ Reddit.text d2 = Reddit.body c2
    ∧ Reddit.professor_name d1 = Some (stored_name professors name)
    ∧ Reddit.professor_name d2 = Some (stored_name professors name).
Proof.
  intros Hc1 Hname Hcode Hvalid Hint1 Hint2. cbn [foldl].
  destruct (comment_step_names L courses professors p code name results c1
              Hc1 Hcode Hvalid Hint1) as (d1 & -> & Ht1 & _ & Hp1).
  destruct (comment_step_named L courses professors p code name
              (results ++ [d1]) c2 Hname Hcode Hvalid Hint2)
    as (d2 & -> & Ht2 & _ & Hp2).
  exists d1, d2. by rewrite <- app_assoc.
Qed.

Lemma professor_name_carries_over_witness :
  let first :=
    {| Reddit.body := "Dr. John Smith explains everything clearly";
       Reddit.c_score := 4; Reddit.created_utc := 1704412800 # 1 |} in
  let second :=
    {| Reddit.body := "Prof. Jane Doe made the assignments much harder";
       Reddit.c_score := 3; Reddit.created_utc := 1704412800 # 1 |} in
  let professors : gset string := {[ "Dr. John Smith"; "Prof. Jane Doe" ]} in
  Reddit.extract_prof_name_from_comment first = Some "Dr. John Smith"
  ∧ PyStr.truthy (Some "Dr. John Smith") = true
  ∧ PyStr.truthy (Some "CISC 124") = true
  ∧ "CISC 124" ∈ ({[ "CISC 124" ]} : gset string)
  ∧ Reddit.is_comment_of_interest first = true
  ∧ Reddit.is_comment_of_interest second = true
  ∧ Reddit.extract_prof_name_from_comment second = Some "Prof. Jane Doe"
  ∧ ∃ d1 d2,
      foldl (Reddit.comment_step (L := Examples.libraries) {[ "CISC 124" ]}
               professors Examples.post_without_code (Some "CISC 124"))
        (None, []) [first; second]
      = (Some "Dr. John Smith", [] ++ [d1; d2])
      ∧ Reddit.text d1 = Reddit.body first
      ∧ Reddit.text d2 = Reddit.body second
      ∧ Reddit.professor_name d1
        = Some (stored_name professors "Dr. John Smith")
      ∧ Reddit.professor_name d2
        = Some (stored_name professors "Dr. John Smith").
Proof.
  intros first second professors.
  assert (Reddit.extract_prof_name_from_comment first = Some "Dr. John Smith")
    as Hc1 by (vm_compute; reflexivity).
  assert (PyStr.truthy (Some "Dr. John Smith") = true) as Hname
    by reflexivity.
  assert (PyStr.truthy (Some "CISC 124") = true) as Hcode by reflexivity.
  assert ("CISC 124" ∈ ({[ "CISC 124" ]} : gset string)) as Hvalid
    by (by apply elem_of_singleton).
  assert (Reddit.is_comment_of_interest first = true) as Hint1
    by (vm_compute; reflexivity).
  assert (Reddit.is_comment_of_interest second = true) as Hint2
    by (vm_compute; reflexivity).
  split; [exact Hc1|]. split; [exact Hname|]. split; [exact Hcode|].
  split; [exact Hvalid|]. split; [exact Hint1|]. split; [exact Hint2|].
  split; [vm_compute; reflexivity|].
  exact (professor_name_carries_over Examples.libraries {[ "CISC 124" ]}
           professors Examples.post_without_code "CISC 124" "Dr. John Smith"
           [] first second Hc1 Hname Hcode Hvalid Hint1 Hint2).
Defined.

(** ** Posts are processed one by one *)

Section RedditFrame.
Import PyStr Reddit.
Context {L : Libraries}.
Variables courses professors : gset string.

(* The rows collected so far are left alone, and have no part in what a
   comment adds. *)
Lemma comment_step_frame (p : post) (post_course_code : option string)
    (prof_name : option string) (results : list comment_data) (c : comment) :
  comment_step courses professors p post_course_code (prof_name, results) c
  = ((comment_step courses professors p post_course_code (prof_name, []) c).1,
     results
     ++ (comment_step courses professors p post_course_code (prof_name, [])
           c).2).
Proof.
  unfold comment_step.
  destruct (is_comment_of_interest c); cbn [negb fst snd];
    [|by rewrite app_nil_r].
  destruct (if truthy post_course_code then post_course_code
            else extract_course_code_from_comment c) as [code|];
    cbn [truthy negb fst snd]; [|by rewrite app_nil_r].
  destruct (String.eqb code ""); cbn [negb fst snd]; [by rewrite app_nil_r|].
  destruct (detect_sentiment (body c)) as [score label].
  destruct (bool_decide (code ∈ courses)); cbn [fst snd]; [done|].
  by rewrite app_nil_r.
Qed.

Lemma comments_loop_frame (p : post) (post_course_code : option string)
    (cs : list comment) (prof_name : option string)
    (results : list comment_data) :
  (foldl (comment_step courses professors p post_course_code)
     (prof_name, results) cs).2
  = results
    ++ (foldl (comment_step courses professors p post_course_code)
          (prof_name, []) cs).2.
Proof.
  revert prof_name results.
  induction cs as [|c cs IH]; intros prof_name results; cbn [foldl].
  - by rewrite app_nil_r.
  - rewrite (comment_step_frame p post_course_code prof_name results c).
    destruct (comment_step courses professors p post_course_code
                (prof_name, []) c) as [name1 new1].
    cbn [fst snd]. rewrite (IH name1 (results ++ new1)), (IH name1 new1).
    by rewrite app_assoc.
Qed.

Lemma post_step_frame (processed : gset string) (results : list comment_data)
    (p : post) :
  post_step courses professors processed results p
  = results ++ post_step courses professors processed [] p.
Proof.
  unfold post_step.
  destruct (bool_decide (url p ∈ processed)); [by rewrite app_nil_r|].
  destruct (is_post_of_interest p); cbn [negb]; [|by rewrite app_nil_r].
  apply comments_loop_frame.
Qed.

Lemma posts_loop_frame (processed : gset string) (posts : list post)
    (results : list comment_data) :
  foldl (post_step courses professors processed) results posts
  = results ++ foldl (post_step courses professors processed) [] posts.
Proof.
  revert results. induction posts as [|p posts IH]; intros results;
    cbn [foldl].
  - by rewrite app_nil_r.
  - rewrite (IH (post_step courses professors processed results p)),
      (IH (post_step courses professors processed [] p)).
    by rewrite post_step_frame, app_assoc.
Qed.
End RedditFrame.

(** X25: scrape_and_store processes the posts one by one: the rows it
    stores for a list of posts are those it stores for the posts taken one
    at a time, in order.  No professor name found in a post is used for
    another post, and the set of processed URLs is not extended during the
    run. *)
Theorem posts_are_processed_one_by_one (L : Libraries)
    (courses professors : gset string) (processed : list string)
    (new_posts : list Reddit.post) :
  Reddit.scrape_and_store courses professors processed new_posts
  = mjoin ((λ p, Reddit.scrape_and_store courses professors processed [p])
             <$> new_posts).
Proof.
  unfold Reddit.scrape_and_store.
  induction new_posts as [|p posts IH]; [done|].
  csimpl. rewrite posts_loop_frame. by rewrite IH.
Qed.
